(** * dramatiq.middleware.threading: asynchronous thread interruption

    A shallow embedding of [dramatiq/middleware/threading.py].  The module's
    globals, the [signal] module, the interpreter's thread states and the
    logging and printing it performs are threaded through an explicit
    [World]; Python exceptions are the [Raise] outcome of a small state and
    error monad. *)

From Stdlib Require Import ZArith Lia.
From stdpp Require Import base gmap strings list pretty.

Local Open Scope string_scope.
Local Open Scope list_scope.
Local Open Scope Z_scope.

(** ** Python classes and objects *)

(** A class object: its [__name__] and its [__bases__]. *)
#[warnings="-register-all"]
Inductive pyclass : Type :=
  Class (name : string) (bases : list pyclass).

Definition class_name (c : pyclass) : string :=
  match c with Class n _ => n end.

Definition class_bases (c : pyclass) : list pyclass :=
  match c with Class _ bs => bs end.

(** Identity of class objects. *)
Fixpoint pyclass_eqb (c d : pyclass) : bool :=
  match c, d with
  | Class n bs, Class m ds =>
      String.eqb n m &&
      (fix all2 (l1 l2 : list pyclass) : bool :=
         match l1, l2 with
         | [], [] => true
         | x :: l1', y :: l2' => pyclass_eqb x y && all2 l1' l2'
         | _, _ => false
         end) bs ds
  end.

(** [issubclass(c, d)]: [d] is [c] or an ancestor of [c]. *)
Fixpoint issubclass (c d : pyclass) : bool :=
  pyclass_eqb c d ||
  match c with
  | Class _ bs => existsb (fun b => issubclass b d) bs
  end.

Definition object : pyclass := Class "object" [].
Definition BaseException : pyclass := Class "BaseException" [object].
Definition Exception : pyclass := Class "Exception" [BaseException].

(** [class Interrupt(BaseException)] *)
Definition Interrupt : pyclass := Class "Interrupt" [BaseException].

(** Modelled from the spec: [DramatiqError], the root of the library's
    application-error hierarchy, is declared in [dramatiq/errors.py]; it is an
    ordinary subclass of [Exception]. *)
Definition DramatiqError : pyclass := Class "DramatiqError" [Exception].

(** What the caller passes as [exception]: a class or an instance of one. *)
Inductive pyobj : Type :=
| PyType (c : pyclass)
| PyInstance (c : pyclass).

Definition inspect_isclass (o : pyobj) : bool :=
  match o with PyType _ => true | PyInstance _ => false end.

(** The metaclass of ordinary classes. *)
Definition type_ : pyclass := Class "type" [object].

(** [type(o)] *)
Definition type_of (o : pyobj) : pyclass :=
  match o with PyType _ => type_ | PyInstance c => c end.

(** [o.__name__] of a class object ([None] where an instance has no such
    attribute). *)
Definition dunder_name (o : pyobj) : option string :=
  match o with PyType c => Some (class_name c) | PyInstance _ => None end.

(** [(exception if inspect.isclass(exception) else type(exception)).__name__] *)
Definition exctype_name (exception : pyobj) : string :=
  default "" (dunder_name (if inspect_isclass exception then exception
                           else PyType (type_of exception))).

(** An [except cls:] clause catches a raised instance of class [c] when
    [c] is a subclass of [cls]; raising a class raises an instance of it. *)
Definition except_catches (cls : pyclass) (raised : pyobj) : bool :=
  match raised with
  | PyInstance c | PyType c => issubclass c cls
  end.

(** ** The capability descriptor resolved at load *)

(** Python's ordering of tuples of strings: the first differing component
    decides, by code points; a proper prefix is smaller. *)
Fixpoint tuple_lt (a b : list string) : bool :=
  match a, b with
  | [], [] => false
  | [], _ :: _ => true
  | _ :: _, [] => false
  | x :: a', y :: b' =>
      if String.eqb x y then tuple_lt a' b' else String.ltb x y
  end.

Inductive ctype : Type := c_long | c_ulong.

(** [thread_id_ctype = ctypes.c_long if python_version < ("3", "7") else ctypes.c_ulong] *)
Definition thread_id_ctype (python_version : list string) : ctype :=
  if tuple_lt python_version ["3"; "7"] then c_long else c_ulong.

(** [platform.python_version_tuple()] of release [major.minor.patch]; the
    patch component may carry a suffix and is kept as a string. *)
Definition python_version_tuple (major minor : nat) (patch : string) : list string :=
  [pretty major; pretty minor; patch].

(** The minor versions 10 to 69. *)
Definition minors_3_10_to_3_69 : list nat := seq 10 60.

(** Width of a C [long] on the host (LP64). *)
Definition LONG_BIT : Z := 64.

(** The [.value] of [ctype(v)]: ctypes does no overflow checking, the
    integer is truncated to the width of the type. *)
Definition ctype_value (t : ctype) (v : Z) : Z :=
  match t with
  | c_ulong => v mod 2 ^ LONG_BIT
  | c_long => (v + 2 ^ (LONG_BIT - 1)) mod 2 ^ LONG_BIT - 2 ^ (LONG_BIT - 1)
  end.

(** The bits of a C [long] or [unsigned long] argument, read by the callee
    as an [unsigned long]. *)
Definition as_unsigned_long (v : Z) : Z := v mod 2 ^ LONG_BIT.

(** ** Values, exceptions and the world *)

(** Values the module's functions return. *)
Inductive pyvalue : Type :=
| PyNone
| PyInt (z : Z).

(** Exceptions the library calls of this module can raise. *)
Inductive pyexc : Type :=
| AttributeError
| TypeError
| ValueError
| OverflowError
| OSError
| ProcessLookupError.

#[global] Instance pyexc_eq_dec : EqDecision pyexc.
Proof. solve_decision. Defined.

(** An attribute of the [signal] module: an integer (a signal number or
    another integer constant) or some other object. *)
Inductive sigattr : Type :=
| SigInt (n : Z)
| SigOther.

(** The disposition of a signal. *)
Inductive handler : Type :=
| SIG_DFL
| SIG_IGN
| PyFunction (qualname : string).

(** Calls into the runtime and the operating system, with their arguments
    as the module passes them. *)
Inductive call : Type :=
| CallSetAsyncExc (id : Z) (exc : option pyobj)
| CallSiginterrupt (sig : sigattr) (flag : bool)
| CallSignal (sig : sigattr) (h : handler)
| CallPthreadKill (thread_id : Z) (sig : sigattr).

Inductive level : Type := DEBUG | CRITICAL.

Inductive logarg : Type :=
| ArgStr (s : string)
| ArgInt (z : Z).

(** A logging call: level, format string and its arguments. *)
Record log_record : Type := LogRecord {
  log_level : level;
  log_msg : string;
  log_args : list logarg
}.

(** A thread state of the interpreter: its thread id and its pending
    asynchronous exception. *)
Record tstate : Type := TState {
  ts_thread_id : Z;
  ts_async_exc : option pyobj
}.

Record World : Type := mkWorld {
  (* module globals *)
  current_platform : string;
  python_version : list string;
  system_call_interruptable : bool;
  system_call_interrupt_signal : string;
  (* the host: the signal module, the interpreter, the operating system *)
  signal_module : gmap string sigattr;
  tstates : list tstate;
  handlers : gmap Z handler;
  interrupting : gmap Z bool;
  delivered : list (Z * Z);
  host_error : call -> option pyexc;
  (* what the module did *)
  calls : list call;
  log : list log_record;
  stdout : list string
}.

Definition set_system_call_interruptable (b : bool) (w : World) : World :=
  mkWorld (current_platform w) (python_version w) b
    (system_call_interrupt_signal w) (signal_module w) (tstates w)
    (handlers w) (interrupting w) (delivered w) (host_error w)
    (calls w) (log w) (stdout w).

Definition set_tstates (ts : list tstate) (w : World) : World :=
  mkWorld (current_platform w) (python_version w)
    (system_call_interruptable w) (system_call_interrupt_signal w)
    (signal_module w) ts (handlers w) (interrupting w) (delivered w)
    (host_error w) (calls w) (log w) (stdout w).

Definition set_handlers (hs : gmap Z handler) (w : World) : World :=
  mkWorld (current_platform w) (python_version w)
    (system_call_interruptable w) (system_call_interrupt_signal w)
    (signal_module w) (tstates w) hs (interrupting w) (delivered w)
    (host_error w) (calls w) (log w) (stdout w).

Definition set_interrupting (m : gmap Z bool) (w : World) : World :=
  mkWorld (current_platform w) (python_version w)
    (system_call_interruptable w) (system_call_interrupt_signal w)
    (signal_module w) (tstates w) (handlers w) m (delivered w)
    (host_error w) (calls w) (log w) (stdout w).

Definition set_delivered (d : list (Z * Z)) (w : World) : World :=
  mkWorld (current_platform w) (python_version w)
    (system_call_interruptable w) (system_call_interrupt_signal w)
    (signal_module w) (tstates w) (handlers w) (interrupting w) d
    (host_error w) (calls w) (log w) (stdout w).

Definition record_call (c : call) (w : World) : World :=
  mkWorld (current_platform w) (python_version w)
    (system_call_interruptable w) (system_call_interrupt_signal w)
    (signal_module w) (tstates w) (handlers w) (interrupting w) (delivered w)
    (host_error w) (calls w ++ [c]) (log w) (stdout w).

Definition record_log (r : log_record) (w : World) : World :=
  mkWorld (current_platform w) (python_version w)
    (system_call_interruptable w) (system_call_interrupt_signal w)
    (signal_module w) (tstates w) (handlers w) (interrupting w) (delivered w)
    (host_error w) (calls w) (log w ++ [r]) (stdout w).

Definition record_print (s : string) (w : World) : World :=
  mkWorld (current_platform w) (python_version w)
    (system_call_interruptable w) (system_call_interrupt_signal w)
    (signal_module w) (tstates w) (handlers w) (interrupting w) (delivered w)
    (host_error w) (calls w) (log w) (stdout w ++ [s]).

(** ** The monad of Python code: state and exceptions *)

Inductive outcome (A : Type) : Type :=
| Return (a : A)
| Raise (e : pyexc).
Arguments Return {A} a.
Arguments Raise {A} e.

Definition Py (A : Type) : Type := World -> outcome A * World.

Definition ret {A} (a : A) : Py A := fun w => (Return a, w).

Definition bind {A B} (m : Py A) (k : A -> Py B) : Py B :=
  fun w =>
    match m w with
    | (Return a, w') => k a w'
    | (Raise e, w') => (Raise e, w')
    end.

(** [try: body  except exc: handler] *)
Definition try_except {A} (body : Py A) (exc : pyexc) (handler : Py A) : Py A :=
  fun w =>
    match body w with
    | (Return a, w') => (Return a, w')
    | (Raise e, w') =>
        if decide (e = exc) then handler w' else (Raise e, w')
    end.

Definition get {A} (f : World -> A) : Py A := fun w => (Return (f w), w).

Definition modify (f : World -> World) : Py unit := fun w => (Return tt, f w).

Declare Scope py_scope.
Delimit Scope py_scope with py.
Notation "x <- m ;; k" := (bind m (fun x => k))
  (at level 100, m at next level, right associativity) : py_scope.
Notation "m ;; k" := (bind m (fun _ => k))
  (at level 100, right associativity) : py_scope.
Local Open Scope py_scope.

(** ** The library calls the module makes *)

(** [hasattr(signal, name)] *)
Definition hasattr_signal (name : string) : Py bool :=
  get (fun w => bool_decide (is_Some (signal_module w !! name))).

(** [getattr(signal, name)] *)
Definition getattr_signal (name : string) : Py sigattr :=
  fun w =>
    match signal_module w !! name with
    | Some v => (Return v, w)
    | None => (Raise AttributeError, w)
    end.

(** [signal.siginterrupt(sig, flag)]: a signal number is required; the host
    may refuse it; otherwise the restart behaviour of the signal is set. *)
Definition signal_siginterrupt (sig : sigattr) (flag : bool) : Py unit :=
  fun w =>
    let w1 := record_call (CallSiginterrupt sig flag) w in
    match sig with
    | SigOther => (Raise TypeError, w1)
    | SigInt n =>
        match host_error w (CallSiginterrupt sig flag) with
        | Some e => (Raise e, w1)
        | None => (Return tt, set_interrupting (<[n := flag]> (interrupting w1)) w1)
        end
    end.

(** [signal.signal(sig, h)]: a signal number is required; the host may
    refuse it; otherwise [h] becomes the disposition of the signal, and
    installing it resets the restart behaviour of the signal to
    interrupting, as [siginterrupt(sig, True)] does. *)
Definition signal_signal (sig : sigattr) (h : handler) : Py unit :=
  fun w =>
    let w1 := record_call (CallSignal sig h) w in
    match sig with
    | SigOther => (Raise TypeError, w1)
    | SigInt n =>
        match host_error w (CallSignal sig h) with
        | Some e => (Raise e, w1)
        | None =>
            (Return tt,
             set_interrupting (<[n := true]> (interrupting w1))
               (set_handlers (<[n := h]> (handlers w1)) w1))
        end
    end.

(** [signal.pthread_kill(thread_id, sig)]: a signal number is required; the
    host may refuse, with [ProcessLookupError] when the thread is gone;
    otherwise the signal is sent to that thread. *)
Definition signal_pthread_kill (thread_id : Z) (sig : sigattr) : Py unit :=
  fun w =>
    let w1 := record_call (CallPthreadKill thread_id sig) w in
    match sig with
    | SigOther => (Raise TypeError, w1)
    | SigInt n =>
        match host_error w (CallPthreadKill thread_id sig) with
        | Some e => (Raise e, w1)
        | None => (Return tt, set_delivered (delivered w1 ++ [(thread_id, n)]) w1)
        end
    end.

(** The runtime's [PyThreadState_SetAsyncExc(id, exc)] on the list of
    thread states: every state whose thread id is [id] gets [exc] as its
    pending asynchronous exception ([None] clears it); the result is the
    number of thread states modified. *)
Fixpoint SetAsyncExc (id : Z) (exc : option pyobj) (ts : list tstate)
  : Z * list tstate :=
  match ts with
  | [] => (0, [])
  | t :: ts' =>
      let '(n, ts'') := SetAsyncExc id exc ts' in
      if ts_thread_id t =? id
      then (n + 1, TState (ts_thread_id t) exc :: ts'')
      else (n, t :: ts'')
  end.

(** [ctypes.pythonapi.PyThreadState_SetAsyncExc(thread_id, exc)], where
    [v] is the [.value] of the ctypes integer [thread_id]. *)
Definition PyThreadState_SetAsyncExc (v : Z) (exc : option pyobj) : Py Z :=
  fun w =>
    let id := as_unsigned_long v in
    let w1 := record_call (CallSetAsyncExc id exc) w in
    let '(count, ts) := SetAsyncExc id exc (tstates w1) in
    (Return count, set_tstates ts w1).

Definition logger_critical (msg : string) (args : list logarg) : Py unit :=
  modify (record_log (LogRecord CRITICAL msg args)).

Definition logger_debug (msg : string) (args : list logarg) : Py unit :=
  modify (record_log (LogRecord DEBUG msg args)).

Definition print (s : string) : Py unit := modify (record_print s).

(** ** The module *)

(** [def interrupt_signal_handler(signum, frame)] *)
Definition interrupt_signal_handler (signum : Z) (frame : unit) : Py pyvalue :=
  print "Interrupting system call in worker thread.";;
  logger_debug "Interrupting system call in worker thread." [];;
  ret PyNone.

(** [def enable_system_call_interruptable_support()] *)
Definition enable_system_call_interruptable_support : Py pyvalue :=
  armed <- get system_call_interruptable;;
  name <- get system_call_interrupt_signal;;
  found <- hasattr_signal name;;
  if negb armed && found then
    sig <- getattr_signal name;;
    signal_siginterrupt sig true;;
    sig <- getattr_signal name;;
    signal_signal sig (PyFunction "interrupt_signal_handler");;
    modify (set_system_call_interruptable true);;
    ret PyNone
  else ret PyNone.

(** [def disable_system_call_interruptable_support()] *)
Definition disable_system_call_interruptable_support : Py pyvalue :=
  armed <- get system_call_interruptable;;
  name <- get system_call_interrupt_signal;;
  if armed then
    sig <- getattr_signal name;;
    signal_siginterrupt sig false;;
    sig <- getattr_signal name;;
    signal_signal sig SIG_DFL;;
    modify (set_system_call_interruptable false);;
    ret PyNone
  else ret PyNone.

(** [def _raise_thread_exception_cpython(thread_id, exception)] *)
Definition _raise_thread_exception_cpython (thread_id : Z) (exception : pyobj)
  : Py pyvalue :=
  let exctype := exctype_name exception in
  version <- get python_version;;
  let thread_id := ctype_value (thread_id_ctype version) thread_id in
  count <- PyThreadState_SetAsyncExc thread_id (Some exception);;
  (if count =? 0 then
     logger_critical "Failed to set exception (%s) in thread %r."
       [ArgStr exctype; ArgInt thread_id]
   else if 1 <? count then
     logger_critical "Exception (%s) was set in multiple threads.  Undoing..."
       [ArgStr exctype];;
     _ <- PyThreadState_SetAsyncExc thread_id None;;
     ret tt
   else ret tt);;
  ret (PyInt count).

(** [def raise_thread_exception(thread_id, exception)] *)
Definition raise_thread_exception (thread_id : Z) (exception : pyobj)
  : Py pyvalue :=
  platform <- get current_platform;;
  if String.eqb platform "CPython" then
    r <- _raise_thread_exception_cpython thread_id exception;;
    armed <- get system_call_interruptable;;
    name <- get system_call_interrupt_signal;;
    (if (match r with PyInt 1 => true | _ => false end) && armed then
       try_except
         (sig <- getattr_signal name;;
          signal_pthread_kill thread_id sig)
         ProcessLookupError
         (ret tt)
     else ret tt);;
    ret PyNone
  else
    let message :=
      "Setting thread exceptions (%s) is not supported for your current platform (%r)." in
    let exctype := exctype_name exception in
    logger_critical message [ArgStr exctype; ArgStr platform];;
    ret PyNone.

(** ** Loading the module and running it *)

(** The host the module is imported on. *)
Record Host : Type := mkHost {
  python_implementation : string;
  host_python_version : list string;
  environ : gmap string string;
  host_signal_module : gmap string sigattr;
  host_tstates : list tstate;
  host_handlers : gmap Z handler;
  host_interrupting : gmap Z bool;
  host_errors : call -> option pyexc
}.

(** [os.getenv(key, default)] *)
Definition os_getenv (h : Host) (key dflt : string) : string :=
  default dflt (environ h !! key).

(** The module's top level: the capability descriptor, the cleared flag and
    the configured signal name. *)
Definition module_load (h : Host) : World :=
  mkWorld (python_implementation h) (host_python_version h)
    false
    (os_getenv h "dramatiq_system_call_interrupt_signal" "SIGUSR1")
    (host_signal_module h) (host_tstates h) (host_handlers h)
    (host_interrupting h) [] (host_errors h) [] [] [].

(** What the host may change between two operations of the module: threads
    start and exit, the operating system answers differently, other code
    logs and prints.  The module's globals and the [signal] module's
    namespace stay. *)
Definition host_moves (w w' : World) : Prop :=
  current_platform w' = current_platform w /\
  python_version w' = python_version w /\
  system_call_interruptable w' = system_call_interruptable w /\
  system_call_interrupt_signal w' = system_call_interrupt_signal w /\
  signal_module w' = signal_module w.

Inductive step : World -> World -> Prop :=
| step_enable w :
    step w (snd (enable_system_call_interruptable_support w))
| step_disable w :
    step w (snd (disable_system_call_interruptable_support w))
| step_raise thread_id exception w :
    step w (snd (raise_thread_exception thread_id exception w))
| step_handler signum frame w :
    step w (snd (interrupt_signal_handler signum frame w))
| step_host w w' :
    host_moves w w' -> step w w'.

(** The worlds a process reaches after importing the module on [h]. *)
Inductive reachable (h : Host) : World -> Prop :=
| reach_load : reachable h (module_load h)
| reach_step w w' : reachable h w -> step w w' -> reachable h w'.

(** When the flag is set, the configured name is an attribute of the
    [signal] module. *)
Definition armed_signal_defined (w : World) : Prop :=
  system_call_interruptable w = true ->
  is_Some (signal_module w !! system_call_interrupt_signal w).

(** The same, with what [siginterrupt] accepted: an integer. *)
Definition armed_signal_number (w : World) : Prop :=
  system_call_interruptable w = true ->
  exists n, signal_module w !! system_call_interrupt_signal w = Some (SigInt n).

(** ** Reading the thread states *)

(** The number of thread states with thread id [id]. *)
Definition count_matching (id : Z) (ts : list tstate) : Z :=
  Z.of_nat (length (List.filter (fun t => ts_thread_id t =? id) ts)).

(** The thread states with the pending exception of thread [id] replaced. *)
Definition with_async_exc (id : Z) (exc : option pyobj) (ts : list tstate)
  : list tstate :=
  map (fun t => if ts_thread_id t =? id then TState (ts_thread_id t) exc else t) ts.

(** The thread id as the runtime receives it from [thread_id_ctype(thread_id)]. *)
Definition marshalled_id (w : World) (thread_id : Z) : Z :=
  as_unsigned_long (ctype_value (thread_id_ctype (python_version w)) thread_id).

(** The delivery count an injection for [thread_id] gets in [w]. *)
Definition delivery_count (w : World) (thread_id : Z) : Z :=
  count_matching (marshalled_id w thread_id) (tstates w).

(** The calls an operation added to the trace. *)
Definition new_calls (w w' : World) : list call :=
  drop (length (calls w)) (calls w').

Definition is_kill (c : call) : bool :=
  match c with CallPthreadKill _ _ => true | _ => false end.

(** The world with the host's answers replaced. *)
Definition set_host_error (f : call -> option pyexc) (w : World) : World :=
  mkWorld (current_platform w) (python_version w)
    (system_call_interruptable w) (system_call_interrupt_signal w)
    (signal_module w) (tstates w) (handlers w) (interrupting w) (delivered w)
    f (calls w) (log w) (stdout w).

(** The body shared by the two operations: look the signal up, set its
    restart behaviour, look it up again, set its disposition, set the flag. *)
Definition configure (armed : bool) (h : handler) : Py pyvalue :=
  name <- get system_call_interrupt_signal;;
  sig <- getattr_signal name;;
  signal_siginterrupt sig armed;;
  sig <- getattr_signal name;;
  signal_signal sig h;;
  modify (set_system_call_interruptable armed);;
  ret PyNone.

(** The flag, the dispositions and the restart behaviour of the signals. *)
Definition controller_state (w : World) : bool * gmap Z handler * gmap Z bool :=
  (system_call_interruptable w, handlers w, interrupting w).

(** ** Example hosts *)

Definition linux_signal_module : gmap string sigattr :=
  <["SIGUSR1" := SigInt 10]> (<["SIGUSR2" := SigInt 12]>
  (<["SIGKILL" := SigInt 9]> (<["NSIG" := SigInt 65]>
  (<["pthread_kill" := SigOther]> ∅)))).

(** CPython 3.8 on Linux with two threads; the operating system accepts
    every call. *)
Definition cpython_host : Host :=
  mkHost "CPython" ["3"; "8"; "10"] ∅ linux_signal_module
    [TState 1 None; TState 7 None] ∅ ∅ (fun _ => None).

(** The same host, on which thread 7 has exited while its thread state is
    still listed: signalling it fails. *)
Definition racing_host : Host :=
  mkHost "CPython" ["3"; "8"; "10"] ∅ linux_signal_module
    [TState 1 None; TState 7 None] ∅ ∅
    (fun c => match c with
              | CallPthreadKill 7 _ => Some ProcessLookupError
              | _ => None
              end).

(** A runtime that lists two thread states under one thread id. *)
Definition inconsistent_host : Host :=
  mkHost "CPython" ["3"; "8"; "10"] ∅ linux_signal_module
    [TState 7 None; TState 1 None; TState 7 None] ∅ ∅ (fun _ => None).

(** PyPy: thread exceptions are not supported. *)
Definition pypy_host : Host :=
  mkHost "PyPy" ["3"; "9"; "18"] ∅ linux_signal_module
    [TState 1 None] ∅ ∅ (fun _ => None).

(** A host whose configured signal name is not defined. *)
Definition misconfigured_host : Host :=
  mkHost "CPython" ["3"; "8"; "10"]
    (<["dramatiq_system_call_interrupt_signal" := "SIGNOPE"]> ∅)
    linux_signal_module [TState 1 None] ∅ ∅ (fun _ => None).

Definition MyInterrupt : pyclass := Class "MyInterrupt" [Interrupt].

(** ** Further operations and hosts *)

(** The handler [enable] installs. *)
Definition installed_handler : handler := PyFunction "interrupt_signal_handler".

(** A host move that leaves the signal dispositions to the module. *)
Definition host_keeps_dispositions (w w' : World) : Prop :=
  host_moves w w' /\ handlers w' = handlers w.

(** The steps of a process in which only this module calls [signal.signal]. *)
Inductive op_step : World -> World -> Prop :=
| op_enable w :
    op_step w (snd (enable_system_call_interruptable_support w))
| op_disable w :
    op_step w (snd (disable_system_call_interruptable_support w))
| op_raise thread_id exception w :
    op_step w (snd (raise_thread_exception thread_id exception w))
| op_handler signum frame w :
    op_step w (snd (interrupt_signal_handler signum frame w))
| op_host w w' :
    host_keeps_dispositions w w' -> op_step w w'.

Inductive op_reachable (h : Host) : World -> Prop :=
| op_reach_load : op_reachable h (module_load h)
| op_reach_step w w' : op_reachable h w -> op_step w w' -> op_reachable h w'.

(** The flag is set exactly when the handler is the disposition of the
    configured signal. *)
Definition installed_iff_armed (w : World) : Prop :=
  forall n,
    signal_module w !! system_call_interrupt_signal w = Some (SigInt n) ->
    (system_call_interruptable w = true <->
     handlers w !! n = Some installed_handler).

(** [for _ in range(n): m()], the result of the last call discarded. *)
Fixpoint repeatedly (n : nat) (m : Py pyvalue) : Py pyvalue :=
  match n with
  | O => ret PyNone
  | S n' => m;; repeatedly n' m
  end.

(** A host that refuses [signal.signal], as outside the main thread. *)
Definition worker_thread_host : Host :=
  mkHost "CPython" ["3"; "8"; "10"] ∅ linux_signal_module
    [TState 1 None; TState 7 None] ∅ ∅
    (fun c => match c with
              | CallSignal _ _ => Some ValueError
              | _ => None
              end).

(** A host on which the configured signal was ignored before the module
    was loaded. *)
Definition ignoring_host : Host :=
  mkHost "CPython" ["3"; "8"; "10"] ∅ linux_signal_module
    [TState 1 None; TState 7 None] (<[10 := SIG_IGN]> ∅) ∅ (fun _ => None).

(** A host that refuses [pthread_kill] with an error other than
    [ProcessLookupError]. *)
Definition failing_kill_host : Host :=
  mkHost "CPython" ["3"; "8"; "10"] ∅ linux_signal_module
    [TState 1 None; TState 7 None] ∅ ∅
    (fun c => match c with
              | CallPthreadKill _ _ => Some OSError
              | _ => None
              end).

(** * Properties *)

(** ** The class hierarchy *)

Section ClassIdentity.

(** Induction over a class and, through its bases, its ancestors. *)
Lemma pyclass_bases_ind (P : pyclass -> Prop) :
  (forall n bs, Forall P bs -> P (Class n bs)) -> forall c, P c.
Proof.
  intros step. fix IH 1. intros [n bs]. apply step.
  induction bs as [|b bs IHbs]; constructor; [apply IH | exact IHbs].
Qed.

Lemma pyclass_eqb_refl c : pyclass_eqb c c = true.
Proof.
  induction c as [n bs IH] using pyclass_bases_ind. simpl.
  rewrite String.eqb_refl. simpl.
  induction IH as [|b bs Hb _ IHbs]; [reflexivity|].
  rewrite Hb. exact IHbs.
Qed.

Lemma pyclass_eqb_eq c d : pyclass_eqb c d = true -> c = d.
Proof.
  revert d. induction c as [n bs IH] using pyclass_bases_ind.
  intros [m ds]. simpl. intros H.
  apply andb_prop in H as [Hn Hbs]. apply String.eqb_eq in Hn. subst m.
  f_equal. revert ds Hbs.
  induction IH as [|b bs Hb _ IHbs]; intros [|d ds] Hbs; try discriminate.
  - reflexivity.
  - apply andb_prop in Hbs as [H1 H2]. f_equal; [apply Hb, H1 | apply IHbs, H2].
Qed.

Lemma pyclass_eqb_true_iff c d : pyclass_eqb c d = true <-> c = d.
Proof.
  split; [apply pyclass_eqb_eq | intros ->; apply pyclass_eqb_refl].
Qed.

Lemma issubclass_unfold c d :
  issubclass c d = pyclass_eqb c d || existsb (fun b => issubclass b d) (class_bases c).
Proof. destruct c; reflexivity. Qed.

Lemma issubclass_refl c : issubclass c c = true.
Proof. rewrite issubclass_unfold, pyclass_eqb_refl. reflexivity. Qed.

(** The ancestors of [Interrupt] are [BaseException] and [object]. *)
Lemma issubclass_Interrupt cls :
  issubclass Interrupt cls = true <->
  cls = Interrupt \/ cls = BaseException \/ cls = object.
Proof.
  split.
  - intros H. cbn [Interrupt BaseException object issubclass existsb] in H.
    repeat (apply orb_prop in H as [H|H]);
      try (apply pyclass_eqb_eq in H; subst cls; auto); discriminate.
  - intros [-> | [-> | ->]]; reflexivity.
Qed.

End ClassIdentity.

(** C9: [Interrupt] derives from [BaseException] alone: it is a subclass of
    neither [Exception] nor [DramatiqError], its only ancestors are
    [BaseException] and [object], and an [except] clause for [Exception],
    for [DramatiqError] or for any subclass of [Exception] does not catch an
    [Interrupt] instance, while one for [BaseException] does. *)
Theorem Interrupt_outside_application_errors :
  class_bases Interrupt = [BaseException] /\
  issubclass Interrupt Exception = false /\
  issubclass Interrupt DramatiqError = false /\
  except_catches Exception (PyInstance Interrupt) = false /\
  except_catches DramatiqError (PyInstance Interrupt) = false /\
  except_catches BaseException (PyInstance Interrupt) = true /\
  forall cls, issubclass cls Exception = true ->
              except_catches cls (PyInstance Interrupt) = false /\
              except_catches cls (PyType Interrupt) = false.
Proof.
  do 6 (split; [reflexivity|]).
  intros cls Hcls. unfold except_catches.
  destruct (issubclass Interrupt cls) eqn:E; [|split; reflexivity].
  apply issubclass_Interrupt in E as [-> | [-> | ->]]; discriminate.
Qed.

Lemma Interrupt_outside_application_errors_witness :
  issubclass DramatiqError Exception = true /\
  except_catches DramatiqError (PyInstance Interrupt) = false.
Proof.
  split; [reflexivity|].
  destruct Interrupt_outside_application_errors as (_ & _ & _ & _ & _ & _ & Hany).
  exact (proj1 (Hany DramatiqError eq_refl)).
Defined.

(** ** The integer type of thread identifiers *)

Section ThreadIdCtype.

(** X1: every release older than 3.7 gets [c_long]. *)
Lemma thread_id_ctype_before_3_7 (major minor : nat) (patch : string) :
  (major < 3 \/ major = 3 /\ minor < 7)%nat ->
  thread_id_ctype (python_version_tuple major minor patch) = c_long.
Proof.
  intros [H | [-> H]].
  - destruct major as [|[|[|?]]]; [reflexivity.. | lia].
  - do 7 (destruct minor as [|minor]; [reflexivity|]). lia.
Qed.

Lemma thread_id_ctype_before_3_7_witness :
  (3 = 3 /\ 6 < 7)%nat /\
  thread_id_ctype (python_version_tuple 3 6 "15") = c_long.
Proof.
  split; [lia|].
  apply (thread_id_ctype_before_3_7 3 6 "15"). right. lia.
Defined.

(** Releases 3.7, 3.8 and 3.9 get [c_ulong]. *)
Lemma thread_id_ctype_3_7_to_3_9 (minor : nat) (patch : string) :
  (7 <= minor <= 9)%nat ->
  thread_id_ctype (python_version_tuple 3 minor patch) = c_ulong.
Proof.
  intros H.
  do 7 (destruct minor as [|minor]; [lia|]).
  do 3 (destruct minor as [|minor]; [reflexivity|]). lia.
Qed.

(** A third component does not matter once the first two decide. *)
Lemma tuple_lt_two_components (a b p x y : string) :
  tuple_lt [a; b] [x; y] = true -> tuple_lt [a; b; p] [x; y] = true.
Proof.
  cbn [tuple_lt].
  destruct (String.eqb a x); [|trivial].
  destruct (String.eqb b y); [discriminate | trivial].
Qed.

(** Releases 3.10 to 3.69 compare below ("3", "7") as strings and get
    [c_long]. *)
Lemma thread_id_ctype_3_10_to_3_69 (minor : nat) (patch : string) :
  (10 <= minor < 70)%nat ->
  thread_id_ctype (python_version_tuple 3 minor patch) = c_long.
Proof.
  intros H.
  assert (Hall : forallb (fun m => tuple_lt [pretty 3%nat; pretty m] ["3"; "7"])
                   minors_3_10_to_3_69 = true) by (vm_compute; reflexivity).
  rewrite forallb_forall in Hall.
  specialize (Hall minor). unfold minors_3_10_to_3_69 in Hall.
  rewrite in_seq in Hall. specialize (Hall ltac:(lia)).
  unfold thread_id_ctype, python_version_tuple.
  rewrite (tuple_lt_two_components _ _ patch _ _ Hall). reflexivity.
Qed.

End ThreadIdCtype.

(** C2: on Python 3.10.0 the version tuple ("3", "10", "0") compares below
    ("3", "7"), component by component as strings, and the signed [c_long]
    is selected. *)
Theorem thread_id_ctype_python_3_10_0 :
  tuple_lt (python_version_tuple 3 10 "0") ["3"; "7"] = true /\
  thread_id_ctype (python_version_tuple 3 10 "0") = c_long.
Proof. split; reflexivity. Qed.

(** ** Injection *)

Section Injection.

(** The runtime primitive, read off the thread states. *)
Lemma SetAsyncExc_spec id exc ts :
  SetAsyncExc id exc ts = (count_matching id ts, with_async_exc id exc ts).
Proof.
  unfold count_matching, with_async_exc.
  induction ts as [|t ts IH]; [reflexivity|].
  cbn [SetAsyncExc List.filter map]. rewrite IH.
  destruct (ts_thread_id t =? id); cbn [length]; f_equal; lia.
Qed.

Lemma count_matching_nonneg id ts : 0 <= count_matching id ts.
Proof. unfold count_matching. lia. Qed.

Lemma count_matching_with_async_exc id exc ts :
  count_matching id (with_async_exc id exc ts) = count_matching id ts.
Proof.
  unfold count_matching, with_async_exc. f_equal.
  induction ts as [|t ts IH]; [reflexivity|].
  cbn [map List.filter].
  destruct (ts_thread_id t =? id) eqn:E; cbn [ts_thread_id]; rewrite E;
    cbn [length]; rewrite IH; reflexivity.
Qed.

(** No thread state matches: nothing is modified. *)
Lemma with_async_exc_no_match id exc ts :
  count_matching id ts = 0 -> with_async_exc id exc ts = ts.
Proof.
  unfold count_matching, with_async_exc.
  induction ts as [|t ts IH]; [reflexivity|].
  cbn [map List.filter].
  destruct (ts_thread_id t =? id); cbn [length]; intros H; [lia|].
  rewrite IH by exact H. reflexivity.
Qed.

(** A second call overwrites the first. *)
Lemma with_async_exc_twice id e1 e2 ts :
  with_async_exc id e2 (with_async_exc id e1 ts) = with_async_exc id e2 ts.
Proof.
  unfold with_async_exc. rewrite map_map. apply map_ext. intros t.
  destruct (ts_thread_id t =? id) eqn:E; cbn [ts_thread_id]; rewrite E; reflexivity.
Qed.

(** After a call, the slot of every matching thread state holds [exc]. *)
Lemma with_async_exc_slot id exc ts :
  Forall (fun t => ts_thread_id t = id -> ts_async_exc t = exc)
         (with_async_exc id exc ts).
Proof.
  unfold with_async_exc.
  induction ts as [|t ts IH]; cbn [map]; constructor; [|exact IH].
  destruct (ts_thread_id t =? id) eqn:E; cbn; [reflexivity|].
  intros H. apply Z.eqb_neq in E. contradiction.
Qed.

(** The other thread states are not touched. *)
Lemma with_async_exc_others id exc ts t :
  In t ts -> ts_thread_id t <> id -> In t (with_async_exc id exc ts).
Proof.
  intros Ht Hne. unfold with_async_exc. apply in_map_iff. exists t.
  apply Z.eqb_neq in Hne. rewrite Hne. auto.
Qed.

(** The [.value] of the ctypes integer is the thread id when it fits the
    type. *)
Lemma ctype_value_fits t v :
  match t with
  | c_long => - 2 ^ (LONG_BIT - 1) <= v < 2 ^ (LONG_BIT - 1)
  | c_ulong => 0 <= v < 2 ^ LONG_BIT
  end ->
  ctype_value t v = v.
Proof.
  unfold ctype_value, LONG_BIT. destruct t; intros H.
  - rewrite Z.mod_small; lia.
  - apply Z.mod_small; lia.
Qed.

(** X2: whichever ctypes integer is selected, the runtime receives the
    thread id modulo the width of [unsigned long]. *)
Lemma as_unsigned_long_ctype_value t v :
  as_unsigned_long (ctype_value t v) = v mod 2 ^ LONG_BIT.
Proof.
  unfold as_unsigned_long, ctype_value, LONG_BIT. destruct t.
  - rewrite <- Zminus_mod_idemp_l, Z.mod_mod by lia.
    rewrite Zminus_mod_idemp_l.
    replace (v + 2 ^ (64 - 1) - 2 ^ (64 - 1)) with v by lia. reflexivity.
  - apply Z.mod_mod. lia.
Qed.

(** What [_raise_thread_exception_cpython] returns and the world it leaves. *)
Lemma _raise_thread_exception_cpython_eq thread_id exception w :
  let v := ctype_value (thread_id_ctype (python_version w)) thread_id in
  let id := marshalled_id w thread_id in
  let n := delivery_count w thread_id in
  let w1 := set_tstates (with_async_exc id (Some exception) (tstates w))
              (record_call (CallSetAsyncExc id (Some exception)) w) in
  _raise_thread_exception_cpython thread_id exception w =
  (Return (PyInt n),
   if n =? 0 then
     record_log (LogRecord CRITICAL "Failed to set exception (%s) in thread %r."
                   [ArgStr (exctype_name exception); ArgInt v]) w1
   else if 1 <? n then
     set_tstates (with_async_exc id None (tstates w))
       (record_call (CallSetAsyncExc id None)
          (record_log (LogRecord CRITICAL
                         "Exception (%s) was set in multiple threads.  Undoing..."
                         [ArgStr (exctype_name exception)]) w1))
   else w1).
Proof.
  intros v id n w1.
  unfold _raise_thread_exception_cpython, PyThreadState_SetAsyncExc,
    logger_critical, bind, get, modify, ret.
  fold v. change (as_unsigned_long v) with id.
  cbn [tstates record_call]. rewrite SetAsyncExc_spec.
  change (count_matching id (tstates w)) with n. fold w1.
  destruct (n =? 0); [reflexivity|].
  destruct (1 <? n); [|reflexivity].
  cbn [tstates record_call record_log set_tstates w1].
  rewrite SetAsyncExc_spec, with_async_exc_twice. reflexivity.
Qed.

(** The calls, the log and the thread states an injection leaves. *)
Lemma injection_calls thread_id exception w :
  let id := marshalled_id w thread_id in
  let n := delivery_count w thread_id in
  calls (snd (_raise_thread_exception_cpython thread_id exception w)) =
  calls w ++
    CallSetAsyncExc id (Some exception) ::
    (if 1 <? n then [CallSetAsyncExc id None] else []).
Proof.
  intros id n. rewrite _raise_thread_exception_cpython_eq. cbn [snd]. fold id n.
  destruct (n =? 0) eqn:E0.
  - apply Z.eqb_eq in E0. rewrite E0. reflexivity.
  - destruct (1 <? n); cbn; [rewrite <- app_assoc|]; reflexivity.
Qed.

Lemma injection_log thread_id exception w :
  let v := ctype_value (thread_id_ctype (python_version w)) thread_id in
  let n := delivery_count w thread_id in
  log (snd (_raise_thread_exception_cpython thread_id exception w)) =
  log w ++
    (if n =? 0 then
       [LogRecord CRITICAL "Failed to set exception (%s) in thread %r."
          [ArgStr (exctype_name exception); ArgInt v]]
     else if 1 <? n then
       [LogRecord CRITICAL "Exception (%s) was set in multiple threads.  Undoing..."
          [ArgStr (exctype_name exception)]]
     else []).
Proof.
  intros v n. rewrite _raise_thread_exception_cpython_eq. cbn [snd]. fold n v.
  destruct (n =? 0); [reflexivity|].
  destruct (1 <? n); [reflexivity|]. cbn. rewrite app_nil_r. reflexivity.
Qed.

Lemma injection_tstates thread_id exception w :
  let id := marshalled_id w thread_id in
  let n := delivery_count w thread_id in
  tstates (snd (_raise_thread_exception_cpython thread_id exception w)) =
  with_async_exc id (if 1 <? n then None else Some exception) (tstates w).
Proof.
  intros id n. rewrite _raise_thread_exception_cpython_eq. cbn [snd]. fold id n.
  destruct (n =? 0) eqn:E0.
  - apply Z.eqb_eq in E0. rewrite E0. reflexivity.
  - destruct (1 <? n); reflexivity.
Qed.

End Injection.

(** The name logged is that of the class passed, or of the class of the
    instance passed. *)
Lemma exctype_name_eq exception :
  exctype_name exception =
  match exception with
  | PyType c => class_name c
  | PyInstance c => class_name c
  end.
Proof. destruct exception; reflexivity. Qed.

(** C5: [_raise_thread_exception_cpython] never raises and returns the
    delivery count, which is not negative.  With count 0 it logs one
    critical record naming the exception type and the thread id (the
    [.value] of the ctypes integer, which is the thread id whenever that
    fits the type) and leaves every thread state as it was; with a count
    above 1 it logs one critical record naming the exception type and calls
    the runtime again to clear the slot, so that every thread state of that
    id ends with no pending exception; with count 1 it logs nothing and the
    exception stays pending.  Thread states of other ids are never touched.
    The exception type named in the records is the [__name__] of the class
    passed, or of the class of the instance passed. *)
Theorem raise_thread_exception_cpython_classifies
  (thread_id : Z) (exception : pyobj) (w : World) :
  let v := ctype_value (thread_id_ctype (python_version w)) thread_id in
  let id := marshalled_id w thread_id in
  let n := delivery_count w thread_id in
  let w' := snd (_raise_thread_exception_cpython thread_id exception w) in
  fst (_raise_thread_exception_cpython thread_id exception w) = Return (PyInt n) /\
  0 <= n /\
  log w' = log w ++
    (if n =? 0 then
       [LogRecord CRITICAL "Failed to set exception (%s) in thread %r."
          [ArgStr (exctype_name exception); ArgInt v]]
     else if 1 <? n then
       [LogRecord CRITICAL "Exception (%s) was set in multiple threads.  Undoing..."
          [ArgStr (exctype_name exception)]]
     else []) /\
  exctype_name exception =
    match exception with
    | PyType c => class_name c
    | PyInstance c => class_name c
    end /\
  calls w' = calls w ++
    CallSetAsyncExc id (Some exception) ::
    (if 1 <? n then [CallSetAsyncExc id None] else []) /\
  tstates w' =
    with_async_exc id (if 1 <? n then None else Some exception) (tstates w) /\
  (n = 0 -> tstates w' = tstates w) /\
  (1 < n ->
   Forall (fun t => ts_thread_id t = id -> ts_async_exc t = None) (tstates w')) /\
  (forall t, In t (tstates w) -> ts_thread_id t <> id -> In t (tstates w')) /\
  (match thread_id_ctype (python_version w) with
   | c_long => - 2 ^ (LONG_BIT - 1) <= thread_id < 2 ^ (LONG_BIT - 1)
   | c_ulong => 0 <= thread_id < 2 ^ LONG_BIT
   end -> v = thread_id).
Proof.
  intros v id n w'.
  pose proof (injection_tstates thread_id exception w) as Hts.
  cbv zeta in Hts. fold id n w' in Hts.
  split; [rewrite _raise_thread_exception_cpython_eq; reflexivity|].
  split; [apply count_matching_nonneg|].
  split; [apply injection_log|].
  split; [apply exctype_name_eq|].
  split; [apply injection_calls|].
  split; [exact Hts|].
  split.
  { intros Hn. rewrite Hts. apply with_async_exc_no_match. exact Hn. }
  split.
  { intros Hn. rewrite Hts. apply Z.ltb_lt in Hn. rewrite Hn.
    apply with_async_exc_slot. }
  split.
  { intros t Ht Hne. rewrite Hts. apply with_async_exc_others; assumption. }
  apply ctype_value_fits.
Qed.

Lemma raise_thread_exception_cpython_classifies_witness :
  let w := module_load inconsistent_host in
  let id := marshalled_id w 7 in
  let w' := snd (_raise_thread_exception_cpython 7 (PyType MyInterrupt) w) in
  let w0 := snd (_raise_thread_exception_cpython 5 (PyInstance MyInterrupt) w) in
  1 < delivery_count w 7 /\
  fst (_raise_thread_exception_cpython 7 (PyType MyInterrupt) w) = Return (PyInt 2) /\
  Forall (fun t => ts_thread_id t = id -> ts_async_exc t = None) (tstates w') /\
  log w' =
    [LogRecord CRITICAL "Exception (%s) was set in multiple threads.  Undoing..."
       [ArgStr "MyInterrupt"]] /\
  delivery_count w 5 = 0 /\
  tstates w0 = tstates w /\
  log w0 =
    [LogRecord CRITICAL "Failed to set exception (%s) in thread %r."
       [ArgStr "MyInterrupt"; ArgInt 5]].
Proof.
  intros w id w' w0.
  assert (H2 : 1 < delivery_count w 7) by (vm_compute; reflexivity).
  assert (H0 : delivery_count w 5 = 0) by (vm_compute; reflexivity).
  destruct (raise_thread_exception_cpython_classifies 7 (PyType MyInterrupt) w)
    as (Hret & _ & Hlog2 & Hname2 & _ & _ & _ & Hretract & _).
  destruct (raise_thread_exception_cpython_classifies 5 (PyInstance MyInterrupt) w)
    as (_ & _ & Hlog0 & Hname0 & _ & _ & Hnone & _).
  cbv zeta in Hlog2, Hlog0. rewrite Hname2 in Hlog2. rewrite Hname0 in Hlog0.
  split; [exact H2|].
  split; [exact (eq_trans Hret ltac:(vm_compute; reflexivity))|].
  split; [exact (Hretract H2)|].
  split; [exact (eq_trans Hlog2 ltac:(vm_compute; reflexivity))|].
  split; [exact H0|].
  split; [exact (Hnone H0)|].
  exact (eq_trans Hlog0 ltac:(vm_compute; reflexivity)).
Defined.

(** ** The unsupported platform and the signal handler *)

(** [raise_thread_exception] off CPython, run step by step. *)
Lemma raise_thread_exception_other_platform_eq thread_id exception w :
  current_platform w <> "CPython" ->
  raise_thread_exception thread_id exception w =
    (Return PyNone,
     record_log
       (LogRecord CRITICAL
          "Setting thread exceptions (%s) is not supported for your current platform (%r)."
          [ArgStr (exctype_name exception); ArgStr (current_platform w)])
       w).
Proof.
  intros Hplat. unfold raise_thread_exception, bind, get.
  apply String.eqb_neq in Hplat. rewrite Hplat. reflexivity.
Qed.

(** C6: when the platform is not CPython, [raise_thread_exception] returns
    [None] and leaves the world as it was but for one critical log record
    whose arguments are the name of the exception's class (the class itself
    or the class of the instance passed) and the platform: no call to the
    runtime or the operating system is made, no thread state changes and no
    signal is sent. *)
Theorem raise_thread_exception_unsupported_platform
  (thread_id : Z) (exception : pyobj) (w : World) :
  current_platform w <> "CPython" ->
  let w' := snd (raise_thread_exception thread_id exception w) in
  raise_thread_exception thread_id exception w =
    (Return PyNone,
     record_log
       (LogRecord CRITICAL
          "Setting thread exceptions (%s) is not supported for your current platform (%r)."
          [ArgStr (exctype_name exception); ArgStr (current_platform w)])
       w) /\
  exctype_name exception =
    match exception with
    | PyType c => class_name c
    | PyInstance c => class_name c
    end /\
  new_calls w w' = [] /\
  tstates w' = tstates w /\
  delivered w' = delivered w /\
  handlers w' = handlers w /\
  interrupting w' = interrupting w /\
  system_call_interruptable w' = system_call_interruptable w /\
  stdout w' = stdout w.
Proof.
  intros Hplat w'. subst w'.
  rewrite (raise_thread_exception_other_platform_eq _ _ _ Hplat). cbn [snd].
  split; [reflexivity|].
  split; [apply exctype_name_eq|].
  repeat split. unfold new_calls. cbn [calls record_log]. apply drop_all.
Qed.

Lemma raise_thread_exception_unsupported_platform_witness :
  let w := module_load pypy_host in
  let w' := snd (raise_thread_exception 1 (PyInstance MyInterrupt) w) in
  current_platform w <> "CPython" /\
  raise_thread_exception 1 (PyInstance MyInterrupt) w =
    (Return PyNone,
     record_log
       (LogRecord CRITICAL
          "Setting thread exceptions (%s) is not supported for your current platform (%r)."
          [ArgStr "MyInterrupt"; ArgStr "PyPy"])
       w) /\
  new_calls w w' = [] /\
  tstates w' = tstates w /\
  delivered w' = delivered w.
Proof.
  assert (Hplat : current_platform (module_load pypy_host) <> "CPython")
    by discriminate.
  destruct (raise_thread_exception_unsupported_platform 1 (PyInstance MyInterrupt)
              (module_load pypy_host) Hplat)
    as (Heq & _ & Hcalls & Hts & Hdel & _).
  split; [exact Hplat|].
  split; [exact Heq|].
  split; [exact Hcalls|].
  split; [exact Hts | exact Hdel].
Defined.

(** C7, as the code has it: the handler returns [None], never raises, and
    changes the world in two places only: it prints one line to standard
    output and logs the same line at debug level.  The flag, the signal
    dispositions, the thread states and the trace of library calls are as
    before. *)
Theorem interrupt_signal_handler_effects (signum : Z) (frame : unit) (w : World) :
  let w' := snd (interrupt_signal_handler signum frame w) in
  interrupt_signal_handler signum frame w =
    (Return PyNone,
     record_log (LogRecord DEBUG "Interrupting system call in worker thread." [])
       (record_print "Interrupting system call in worker thread." w)) /\
  stdout w' = stdout w ++ ["Interrupting system call in worker thread."] /\
  log w' = log w ++ [LogRecord DEBUG "Interrupting system call in worker thread." []] /\
  calls w' = calls w /\
  tstates w' = tstates w /\
  handlers w' = handlers w /\
  interrupting w' = interrupting w /\
  delivered w' = delivered w /\
  system_call_interruptable w' = system_call_interruptable w.
Proof. repeat split. Qed.

(** C7, as stated, fails: run on a freshly loaded module the handler leaves
    a line on standard output and a record in the log. *)
Lemma interrupt_signal_handler_not_noop :
  interrupt_signal_handler 10 tt (module_load cpython_host) <>
    (Return PyNone, module_load cpython_host) /\
  stdout (module_load cpython_host) = [] /\
  stdout (snd (interrupt_signal_handler 10 tt (module_load cpython_host))) =
    ["Interrupting system call in worker thread."] /\
  log (snd (interrupt_signal_handler 10 tt (module_load cpython_host))) =
    [LogRecord DEBUG "Interrupting system call in worker thread." []].
Proof.
  repeat split. intros H.
  apply (f_equal (fun r => stdout (snd r))) in H. discriminate H.
Qed.

(** ** The system-call interrupt controller *)

Section Controller.

Lemma enable_configure w :
  enable_system_call_interruptable_support w =
  if negb (system_call_interruptable w) &&
     bool_decide (is_Some (signal_module w !! system_call_interrupt_signal w))
  then configure true (PyFunction "interrupt_signal_handler") w
  else (Return PyNone, w).
Proof.
  unfold enable_system_call_interruptable_support, configure, hasattr_signal,
    bind, get, ret.
  destruct (negb _ && _); reflexivity.
Qed.

Lemma disable_configure w :
  disable_system_call_interruptable_support w =
  if system_call_interruptable w then configure false SIG_DFL w
  else (Return PyNone, w).
Proof.
  unfold disable_system_call_interruptable_support, configure, bind, get, ret.
  destruct (system_call_interruptable w); reflexivity.
Qed.

(** [configure], run step by step. *)
Lemma configure_eq armed h w :
  configure armed h w =
  match signal_module w !! system_call_interrupt_signal w with
  | None => (Raise AttributeError, w)
  | Some sig =>
      let w1 := record_call (CallSiginterrupt sig armed) w in
      match sig with
      | SigOther => (Raise TypeError, w1)
      | SigInt n =>
          match host_error w (CallSiginterrupt sig armed) with
          | Some e => (Raise e, w1)
          | None =>
              let w2 := record_call (CallSignal sig h)
                          (set_interrupting (<[n := armed]> (interrupting w)) w1) in
              match host_error w (CallSignal sig h) with
              | Some e => (Raise e, w2)
              | None =>
                  (Return PyNone,
                   set_system_call_interruptable armed
                     (set_interrupting
                        (<[n := true]> (<[n := armed]> (interrupting w)))
                        (set_handlers (<[n := h]> (handlers w)) w2)))
              end
          end
      end
  end.
Proof.
  unfold configure, getattr_signal, signal_siginterrupt, signal_signal,
    bind, get, modify, ret.
  destruct (signal_module w !! system_call_interrupt_signal w) as [[n|]|] eqn:E;
    [|reflexivity..].
  destruct (host_error w (CallSiginterrupt (SigInt n) armed)) eqn:E1; [reflexivity|].
  cbn [signal_module set_interrupting record_call host_error interrupting handlers].
  rewrite E.
  cbn [signal_module set_interrupting record_call host_error interrupting handlers].
  destruct (host_error w (CallSignal (SigInt n) h)); reflexivity.
Qed.

(** [configure] leaves the module's other globals and the [signal] module's
    namespace alone. *)
Lemma configure_host_moves armed h w :
  let w' := snd (configure armed h w) in
  current_platform w' = current_platform w /\
  python_version w' = python_version w /\
  system_call_interrupt_signal w' = system_call_interrupt_signal w /\
  signal_module w' = signal_module w /\
  host_error w' = host_error w /\
  tstates w' = tstates w /\
  delivered w' = delivered w /\
  log w' = log w /\
  stdout w' = stdout w.
Proof.
  intros w'. subst w'. rewrite configure_eq.
  destruct (signal_module w !! system_call_interrupt_signal w) as [[n|]|];
    [|repeat split..].
  cbv zeta.
  destruct (host_error w (CallSiginterrupt (SigInt n) armed)); [repeat split|].
  destruct (host_error w (CallSignal (SigInt n) h)); repeat split.
Qed.

(** [configure] sets the flag when it returns, and only then; it returns only
    for a signal number. *)
Lemma configure_flag armed h w :
  let w' := snd (configure armed h w) in
  (forall r, fst (configure armed h w) = Return r ->
     r = PyNone /\ system_call_interruptable w' = armed /\
     exists n, signal_module w !! system_call_interrupt_signal w = Some (SigInt n)) /\
  (forall e, fst (configure armed h w) = Raise e ->
     system_call_interruptable w' = system_call_interruptable w).
Proof.
  intros w'. subst w'. rewrite configure_eq.
  destruct (signal_module w !! system_call_interrupt_signal w) as [[n|]|];
    [|split; [discriminate | reflexivity]..].
  cbv zeta.
  destruct (host_error w (CallSiginterrupt (SigInt n) armed));
    [split; [discriminate | reflexivity]|].
  destruct (host_error w (CallSignal (SigInt n) h));
    [split; [discriminate | reflexivity]|].
  split; [|discriminate].
  intros r [= <-]. eauto.
Qed.

End Controller.

Section ControllerIdempotence.

Lemma enable_noop w :
  system_call_interruptable w = true \/
  signal_module w !! system_call_interrupt_signal w = None ->
  enable_system_call_interruptable_support w = (Return PyNone, w).
Proof.
  intros H. rewrite enable_configure.
  destruct H as [-> | ->]; [reflexivity|].
  rewrite andb_false_r. reflexivity.
Qed.

Lemma disable_noop w :
  system_call_interruptable w = false ->
  disable_system_call_interruptable_support w = (Return PyNone, w).
Proof. intros H. rewrite disable_configure, H. reflexivity. Qed.

(** Once [enable] has returned, the flag is set or the signal is not
    defined: a further call does nothing. *)
Lemma enable_again w r :
  fst (enable_system_call_interruptable_support w) = Return r ->
  enable_system_call_interruptable_support
    (snd (enable_system_call_interruptable_support w)) =
  (Return PyNone, snd (enable_system_call_interruptable_support w)).
Proof.
  rewrite enable_configure.
  destruct (negb _ && _) eqn:C.
  - intros H. apply enable_noop. left.
    apply (proj1 (configure_flag _ _ _)) in H. tauto.
  - intros _. cbn [snd]. rewrite enable_configure, C. reflexivity.
Qed.

Lemma disable_again w r :
  fst (disable_system_call_interruptable_support w) = Return r ->
  disable_system_call_interruptable_support
    (snd (disable_system_call_interruptable_support w)) =
  (Return PyNone, snd (disable_system_call_interruptable_support w)).
Proof.
  rewrite disable_configure.
  destruct (system_call_interruptable w) eqn:C.
  - intros H. apply disable_noop.
    apply (proj1 (configure_flag _ _ _)) in H. tauto.
  - intros _. cbn [snd]. apply disable_noop, C.
Qed.

(** Also when the host refuses a call, a second [configure] ends in the
    controller state the first one left. *)
Lemma configure_controller_state armed h w :
  fst (configure armed h w) <> Return PyNone ->
  let w1 := snd (configure armed h w) in
  controller_state (snd (configure armed h w1)) = controller_state w1.
Proof.
  intros Hraise w1. subst w1. revert Hraise.
  rewrite (configure_eq armed h w).
  destruct (signal_module w !! system_call_interrupt_signal w) as [[n|]|] eqn:E;
    cbv zeta; cbn [fst snd].
  - destruct (host_error w (CallSiginterrupt (SigInt n) armed)) eqn:E1;
      cbn [fst snd].
    + intros _. rewrite configure_eq.
      cbn [signal_module record_call host_error system_call_interrupt_signal].
      rewrite E, E1. reflexivity.
    + destruct (host_error w (CallSignal (SigInt n) h)) eqn:E2; cbn [fst snd];
        [|intros H; contradiction H; reflexivity].
      intros _. rewrite configure_eq.
      cbn [signal_module record_call set_interrupting host_error
           system_call_interrupt_signal interrupting].
      rewrite E, E1, E2. unfold controller_state. cbn.
      rewrite insert_insert_eq. reflexivity.
  - intros _. rewrite configure_eq.
    cbn [signal_module record_call system_call_interrupt_signal]. rewrite E.
    reflexivity.
  - intros _. rewrite configure_eq, E. reflexivity.
Qed.

Lemma enable_controller_state w :
  let w1 := snd (enable_system_call_interruptable_support w) in
  controller_state (snd (enable_system_call_interruptable_support w1)) =
  controller_state w1.
Proof.
  intros w1.
  destruct (fst (enable_system_call_interruptable_support w)) as [r|e] eqn:R.
  - subst w1. rewrite (enable_again w r R). reflexivity.
  - subst w1. revert R. rewrite (enable_configure w).
    destruct (negb _ && _) eqn:C; [|discriminate].
    intros R.
    pose proof (configure_host_moves true (PyFunction "interrupt_signal_handler") w)
      as (_ & _ & Hname & Hsm & _).
    pose proof (proj2 (configure_flag true (PyFunction "interrupt_signal_handler") w) e R)
      as Hflag.
    cbv zeta in Hname, Hsm, Hflag.
    rewrite enable_configure, Hname, Hsm, Hflag, C.
    apply configure_controller_state. rewrite R. discriminate.
Qed.

End ControllerIdempotence.

(** X3: with the flag set, the signal a number and a host that accepts the
    two calls, [disable] calls [siginterrupt(sig, False)] and then
    [signal.signal(sig, SIG_DFL)], returns [None], clears the flag and
    leaves the default disposition for the signal.  Since installing a
    disposition resets the restart behaviour, the signal ends marked as
    interrupting: the [siginterrupt(sig, False)] call has no lasting
    effect. *)
Theorem disable_restores_default_disposition (w : World) (n : Z) :
  system_call_interruptable w = true ->
  signal_module w !! system_call_interrupt_signal w = Some (SigInt n) ->
  host_error w (CallSiginterrupt (SigInt n) false) = None ->
  host_error w (CallSignal (SigInt n) SIG_DFL) = None ->
  let w' := snd (disable_system_call_interruptable_support w) in
  fst (disable_system_call_interruptable_support w) = Return PyNone /\
  system_call_interruptable w' = false /\
  handlers w' = <[n := SIG_DFL]> (handlers w) /\
  interrupting w' = <[n := true]> (interrupting w) /\
  new_calls w w' =
    [CallSiginterrupt (SigInt n) false; CallSignal (SigInt n) SIG_DFL].
Proof.
  intros Hflag Hsig H1 H2 w'. subst w'.
  rewrite disable_configure, Hflag, configure_eq, Hsig, H1, H2.
  cbv zeta. cbn [fst snd].
  split; [reflexivity|]. split; [reflexivity|]. split; [reflexivity|].
  cbn [interrupting calls set_system_call_interruptable set_handlers
       record_call set_interrupting].
  split; [apply insert_insert_eq|].
  unfold new_calls. cbn [calls set_system_call_interruptable set_handlers
                         record_call set_interrupting].
  rewrite <- app_assoc. apply drop_app_length.
Qed.

Lemma disable_restores_default_disposition_witness :
  let w := snd (enable_system_call_interruptable_support (module_load cpython_host)) in
  let w' := snd (disable_system_call_interruptable_support w) in
  system_call_interruptable w = true /\
  system_call_interruptable w' = false /\
  handlers w' !! 10 = Some SIG_DFL /\
  interrupting w' !! 10 = Some true /\
  new_calls w w' =
    [CallSiginterrupt (SigInt 10) false; CallSignal (SigInt 10) SIG_DFL].
Proof.
  intros w w'.
  assert (Hflag : system_call_interruptable w = true) by (vm_compute; reflexivity).
  assert (Hsig : signal_module w !! system_call_interrupt_signal w = Some (SigInt 10))
    by (vm_compute; reflexivity).
  assert (H1 : host_error w (CallSiginterrupt (SigInt 10) false) = None)
    by (vm_compute; reflexivity).
  assert (H2 : host_error w (CallSignal (SigInt 10) SIG_DFL) = None)
    by (vm_compute; reflexivity).
  destruct (disable_restores_default_disposition w 10 Hflag Hsig H1 H2)
    as (_ & Hcleared & Hh & Hi & Hcalls).
  split; [exact Hflag|].
  split; [exact Hcleared|].
  split; [unfold w'; rewrite Hh; apply lookup_insert_eq|].
  split; [unfold w'; rewrite Hi; apply lookup_insert_eq|].
  exact Hcalls.
Defined.

(** An [enable] that arms, run step by step. *)
Lemma enable_arms_eq w n :
  system_call_interruptable w = false ->
  signal_module w !! system_call_interrupt_signal w = Some (SigInt n) ->
  host_error w (CallSiginterrupt (SigInt n) true) = None ->
  host_error w (CallSignal (SigInt n) (PyFunction "interrupt_signal_handler")) = None ->
  enable_system_call_interruptable_support w =
  (Return PyNone,
   set_system_call_interruptable true
     (set_interrupting (<[n := true]> (<[n := true]> (interrupting w)))
        (set_handlers (<[n := PyFunction "interrupt_signal_handler"]> (handlers w))
           (record_call (CallSignal (SigInt n) (PyFunction "interrupt_signal_handler"))
              (set_interrupting (<[n := true]> (interrupting w))
                 (record_call (CallSiginterrupt (SigInt n) true) w)))))).
Proof.
  intros Hflag Hsig H1 H2.
  rewrite enable_configure, Hflag, Hsig. cbn [negb andb].
  rewrite bool_decide_true by eauto.
  rewrite configure_eq, Hsig, H1, H2. reflexivity.
Qed.

(** C3: [enable] and [disable] are idempotent.  Whatever the first [enable]
    did, a second one ends in the same flag, dispositions and restart
    behaviour; once the first [enable] has returned, the second changes
    nothing at all and makes no library call; with the flag already set
    [enable] changes nothing.  From a cleared flag, a defined signal and a
    host that accepts the two calls, two [enable]s leave the flag set, the
    handler installed, and a trace with one [siginterrupt] and one
    [signal.signal] call.  [disable] with the flag cleared changes nothing
    and makes no library call, and so does a [disable] after one that
    returned. *)
Theorem enable_disable_idempotent (w : World) :
  let w1 := snd (enable_system_call_interruptable_support w) in
  let w2 := snd (enable_system_call_interruptable_support w1) in
  controller_state w2 = controller_state w1 /\
  (forall r, fst (enable_system_call_interruptable_support w) = Return r ->
     enable_system_call_interruptable_support w1 = (Return PyNone, w1)) /\
  (system_call_interruptable w = true ->
     enable_system_call_interruptable_support w = (Return PyNone, w)) /\
  (forall n,
     system_call_interruptable w = false ->
     signal_module w !! system_call_interrupt_signal w = Some (SigInt n) ->
     host_error w (CallSiginterrupt (SigInt n) true) = None ->
     host_error w (CallSignal (SigInt n) (PyFunction "interrupt_signal_handler")) = None ->
     system_call_interruptable w2 = true /\
     handlers w2 = <[n := PyFunction "interrupt_signal_handler"]> (handlers w) /\
     interrupting w2 = <[n := true]> (interrupting w) /\
     new_calls w w2 =
       [CallSiginterrupt (SigInt n) true;
        CallSignal (SigInt n) (PyFunction "interrupt_signal_handler")]) /\
  (system_call_interruptable w = false ->
     disable_system_call_interruptable_support w = (Return PyNone, w)) /\
  (forall r, fst (disable_system_call_interruptable_support w) = Return r ->
     disable_system_call_interruptable_support
       (snd (disable_system_call_interruptable_support w)) =
     (Return PyNone, snd (disable_system_call_interruptable_support w))).
Proof.
  intros w1 w2.
  split; [apply enable_controller_state|].
  split; [apply enable_again|].
  split; [intros H; apply enable_noop; auto|].
  split; [|split; [apply disable_noop | apply disable_again]].
  intros n Hflag Hsig H1 H2.
  pose proof (enable_arms_eq w n Hflag Hsig H1 H2) as E1.
  assert (E2 : w2 = w1).
  { subst w2 w1. rewrite (enable_again w PyNone); [reflexivity|].
    rewrite E1. reflexivity. }
  rewrite E2. subst w1. rewrite E1. cbn [snd].
  split; [reflexivity|]. split; [reflexivity|].
  split.
  { cbn [interrupting set_system_call_interruptable set_interrupting].
    apply insert_insert_eq. }
  unfold new_calls. cbn [calls set_system_call_interruptable set_handlers
                         record_call set_interrupting].
  rewrite <- app_assoc. apply drop_app_length.
Qed.

Lemma enable_disable_idempotent_witness :
  let w := module_load cpython_host in
  let w1 := snd (enable_system_call_interruptable_support w) in
  let w2 := snd (enable_system_call_interruptable_support w1) in
  enable_system_call_interruptable_support w1 = (Return PyNone, w1) /\
  system_call_interruptable w2 = true /\
  new_calls w w2 =
    [CallSiginterrupt (SigInt 10) true;
     CallSignal (SigInt 10) (PyFunction "interrupt_signal_handler")] /\
  disable_system_call_interruptable_support w = (Return PyNone, w).
Proof.
  destruct (enable_disable_idempotent (module_load cpython_host))
    as (_ & Hagain & _ & Harm & Hdis & _).
  split; [apply (Hagain PyNone); vm_compute; reflexivity|].
  destruct (Harm 10) as (Hflag & _ & _ & Hcalls); try (vm_compute; reflexivity).
  split; [exact Hflag|].
  split; [exact Hcalls|].
  apply Hdis. vm_compute. reflexivity.
Defined.

(** ** The interrupt-a-thread operation *)

Section Orchestration.

Variables (thread_id : Z) (exception : pyobj) (w : World).

(** The injector touches the thread states, the trace and the log only. *)
Lemma _raise_thread_exception_cpython_frame :
  let w1 := snd (_raise_thread_exception_cpython thread_id exception w) in
  current_platform w1 = current_platform w /\
  python_version w1 = python_version w /\
  system_call_interruptable w1 = system_call_interruptable w /\
  system_call_interrupt_signal w1 = system_call_interrupt_signal w /\
  signal_module w1 = signal_module w /\
  host_error w1 = host_error w /\
  handlers w1 = handlers w /\
  interrupting w1 = interrupting w /\
  delivered w1 = delivered w /\
  stdout w1 = stdout w.
Proof.
  intros w1. subst w1. rewrite _raise_thread_exception_cpython_eq. cbn [snd].
  destruct (_ =? 0); [repeat split|].
  destruct (1 <? _); repeat split.
Qed.

Lemma ret_is_one (n : Z) :
  match PyInt n with PyInt 1 => true | _ => false end = (n =? 1).
Proof. destruct n as [|[p|p|]|p]; reflexivity. Qed.

(** [raise_thread_exception] on CPython, run step by step. *)
Lemma raise_thread_exception_cpython_eq :
  current_platform w = "CPython" ->
  let w1 := snd (_raise_thread_exception_cpython thread_id exception w) in
  raise_thread_exception thread_id exception w =
  if (delivery_count w thread_id =? 1) && system_call_interruptable w then
    match signal_module w !! system_call_interrupt_signal w with
    | None => (Raise AttributeError, w1)
    | Some sig =>
        let w2 := record_call (CallPthreadKill thread_id sig) w1 in
        match sig with
        | SigOther => (Raise TypeError, w2)
        | SigInt n =>
            match host_error w (CallPthreadKill thread_id sig) with
            | Some e =>
                if decide (e = ProcessLookupError) then (Return PyNone, w2)
                else (Raise e, w2)
            | None =>
                (Return PyNone,
                 set_delivered (delivered w ++ [(thread_id, n)]) w2)
            end
        end
    end
  else (Return PyNone, w1).
Proof.
  intros Hplat w1.
  pose proof _raise_thread_exception_cpython_frame
    as (_ & _ & Hflag & Hname & Hsm & Herr & _ & _ & Hdel & _).
  cbv zeta in Hflag, Hname, Hsm, Herr, Hdel. fold w1 in Hflag, Hname, Hsm, Herr, Hdel.
  unfold raise_thread_exception. unfold bind at 1. unfold get at 1.
  rewrite Hplat. cbn [String.eqb Ascii.eqb Bool.eqb].
  unfold bind at 1.
  destruct (_raise_thread_exception_cpython thread_id exception w) as [r w1'] eqn:R.
  pose proof (_raise_thread_exception_cpython_eq thread_id exception w) as Req.
  cbv zeta in Req. rewrite R in Req. injection Req as Hr _.
  cbn [snd] in w1. subst w1 r.
  unfold bind, get, try_except, getattr_signal, signal_pthread_kill, ret.
  rewrite ret_is_one, Hflag, Hname.
  destruct (_ && _); [|reflexivity].
  rewrite Hsm.
  destruct (signal_module w !! system_call_interrupt_signal w) as [[n|]|];
    [|reflexivity..].
  rewrite Herr.
  destruct (host_error w (CallPthreadKill thread_id (SigInt n))) as [e|].
  - destruct (decide (e = ProcessLookupError)); reflexivity.
  - cbn [record_call delivered]. rewrite Hdel. reflexivity.
Qed.

(** An operation of the module keeps the module's other globals and the
    [signal] module's namespace. *)
Lemma raise_thread_exception_host_moves :
  host_moves w (snd (raise_thread_exception thread_id exception w)).
Proof.
  destruct (String.eqb (current_platform w) "CPython") eqn:P.
  - apply String.eqb_eq in P.
    pose proof _raise_thread_exception_cpython_frame
      as (H1 & H2 & H3 & H4 & H5 & _).
    cbv zeta in H1, H2, H3, H4, H5.
    rewrite (raise_thread_exception_cpython_eq P).
    destruct (_ && _); [|repeat split; assumption].
    destruct (signal_module w !! system_call_interrupt_signal w) as [[n|]|];
      [|repeat split; assumption..].
    cbv zeta.
    destruct (host_error w _) as [e|]; [|repeat split; assumption].
    destruct (decide _); repeat split; assumption.
  - apply String.eqb_neq in P.
    rewrite (raise_thread_exception_other_platform_eq _ _ _ P).
    repeat split.
Qed.

End Orchestration.

(** ** The invariant of the flag *)

Section Invariant.

Lemma enable_host_moves_but_flag w :
  let w' := snd (enable_system_call_interruptable_support w) in
  system_call_interrupt_signal w' = system_call_interrupt_signal w /\
  signal_module w' = signal_module w.
Proof.
  intros w'. subst w'. rewrite enable_configure.
  destruct (negb _ && _); [|split; reflexivity].
  pose proof (configure_host_moves true (PyFunction "interrupt_signal_handler") w)
    as (_ & _ & Hname & Hsm & _).
  split; assumption.
Qed.

Lemma disable_host_moves_but_flag w :
  let w' := snd (disable_system_call_interruptable_support w) in
  system_call_interrupt_signal w' = system_call_interrupt_signal w /\
  signal_module w' = signal_module w.
Proof.
  intros w'. subst w'. rewrite disable_configure.
  destruct (system_call_interruptable w); [|split; reflexivity].
  pose proof (configure_host_moves false SIG_DFL w) as (_ & _ & Hname & Hsm & _).
  split; assumption.
Qed.

(** [enable] sets the flag only for a name it found to be a signal number. *)
Lemma enable_flag w :
  system_call_interruptable (snd (enable_system_call_interruptable_support w)) = true ->
  system_call_interruptable w = true \/
  exists n, signal_module w !! system_call_interrupt_signal w = Some (SigInt n).
Proof.
  rewrite enable_configure.
  destruct (negb _ && _) eqn:C; [|cbn [snd]; auto].
  pose proof (configure_flag true (PyFunction "interrupt_signal_handler") w)
    as [Hret Hraise].
  cbv zeta in Hret, Hraise.
  destruct (fst (configure true (PyFunction "interrupt_signal_handler") w))
    as [r|e] eqn:R.
  - destruct (Hret r eq_refl) as (_ & _ & Hn). auto.
  - rewrite (Hraise e eq_refl). auto.
Qed.

(** [disable] never sets the flag. *)
Lemma disable_flag w :
  system_call_interruptable (snd (disable_system_call_interruptable_support w)) = true ->
  system_call_interruptable w = true.
Proof.
  rewrite disable_configure.
  destruct (system_call_interruptable w) eqn:C; [reflexivity|].
  cbn [snd]. congruence.
Qed.

Lemma armed_signal_number_defined w :
  armed_signal_number w -> armed_signal_defined w.
Proof. intros H Hflag. destruct (H Hflag) as [n ->]. eauto. Qed.

(** Every step keeps both forms of the invariant. *)
Lemma step_armed_signal_defined w w' :
  step w w' -> armed_signal_defined w -> armed_signal_defined w'.
Proof.
  unfold armed_signal_defined. intros Hstep Hinv.
  destruct Hstep as [w | w | tid exc w | signum frame w | w w' Hmoves].
  - destruct (enable_host_moves_but_flag w) as [-> ->]. intros Hflag.
    destruct (enable_flag w Hflag) as [H | [n ->]]; eauto.
  - destruct (disable_host_moves_but_flag w) as [-> ->]. intros Hflag.
    apply Hinv, disable_flag, Hflag.
  - destruct (raise_thread_exception_host_moves tid exc w)
      as (_ & _ & -> & -> & ->). exact Hinv.
  - exact Hinv.
  - destruct Hmoves as (_ & _ & -> & -> & ->). exact Hinv.
Qed.

Lemma step_armed_signal_number w w' :
  step w w' -> armed_signal_number w -> armed_signal_number w'.
Proof.
  unfold armed_signal_number. intros Hstep Hinv.
  destruct Hstep as [w | w | tid exc w | signum frame w | w w' Hmoves].
  - destruct (enable_host_moves_but_flag w) as [-> ->]. intros Hflag.
    destruct (enable_flag w Hflag) as [H | H]; eauto.
  - destruct (disable_host_moves_but_flag w) as [-> ->]. intros Hflag.
    apply Hinv, disable_flag, Hflag.
  - destruct (raise_thread_exception_host_moves tid exc w)
      as (_ & _ & -> & -> & ->). exact Hinv.
  - exact Hinv.
  - destruct Hmoves as (_ & _ & -> & -> & ->). exact Hinv.
Qed.

Lemma reachable_armed_signal_number h w :
  reachable h w -> armed_signal_number w.
Proof.
  induction 1 as [|w w' _ IH Hstep].
  - intros Hflag. discriminate Hflag.
  - exact (step_armed_signal_number w w' Hstep IH).
Qed.

(** With the invariant, [disable] raises only what the host raises. *)
Lemma disable_raises w e :
  armed_signal_number w ->
  fst (disable_system_call_interruptable_support w) = Raise e ->
  exists c, host_error w c = Some e.
Proof.
  intros Hinv. rewrite disable_configure.
  destruct (system_call_interruptable w) eqn:Hflag; [|discriminate].
  destruct (Hinv Hflag) as [n Hn].
  rewrite configure_eq, Hn. cbv zeta.
  destruct (host_error w (CallSiginterrupt (SigInt n) false)) as [e1|] eqn:E1.
  - intros [= <-]. eauto.
  - destruct (host_error w (CallSignal (SigInt n) SIG_DFL)) as [e2|] eqn:E2;
      [|discriminate].
    intros [= <-]. eauto.
Qed.

(** With the invariant, [raise_thread_exception] raises only what the host
    raises for the wake signal, and never [ProcessLookupError]. *)
Lemma raise_thread_exception_raises thread_id exception w e :
  armed_signal_number w ->
  fst (raise_thread_exception thread_id exception w) = Raise e ->
  e <> ProcessLookupError /\
  exists sig, host_error w (CallPthreadKill thread_id sig) = Some e.
Proof.
  intros Hinv.
  destruct (String.eqb (current_platform w) "CPython") eqn:P.
  - apply String.eqb_eq in P. rewrite (raise_thread_exception_cpython_eq _ _ _ P).
    destruct (_ =? 1); [|discriminate].
    destruct (system_call_interruptable w) eqn:Hflag; [|discriminate].
    destruct (Hinv Hflag) as [n Hn]. cbn [andb]. rewrite Hn. cbv zeta.
    destruct (host_error w (CallPthreadKill thread_id (SigInt n))) as [e1|] eqn:E1;
      [|discriminate].
    destruct (decide (e1 = ProcessLookupError)); [discriminate|].
    intros [= <-]. eauto.
  - apply String.eqb_neq in P.
    rewrite (raise_thread_exception_other_platform_eq _ _ _ P). discriminate.
Qed.

End Invariant.

(** C10: in every world reached from loading the module, a set flag means
    that the configured name is an attribute of the [signal] module, and
    every step keeps it so; [getattr] of that name then returns, so that
    neither [disable] nor [raise_thread_exception] raises [AttributeError]
    unless the host itself does; and when the configured name is not
    defined the flag is cleared and [enable] changes nothing. *)
Theorem armed_signal_always_resolves (h : Host) (w : World) :
  reachable h w ->
  armed_signal_defined w /\
  (forall w', step w w' -> armed_signal_defined w') /\
  (system_call_interruptable w = true ->
   exists sig,
     getattr_signal (system_call_interrupt_signal w) w = (Return sig, w)) /\
  ((forall c, host_error w c <> Some AttributeError) ->
   fst (disable_system_call_interruptable_support w) <> Raise AttributeError /\
   forall thread_id exception,
     fst (raise_thread_exception thread_id exception w) <> Raise AttributeError) /\
  (signal_module w !! system_call_interrupt_signal w = None ->
   system_call_interruptable w = false /\
   enable_system_call_interruptable_support w = (Return PyNone, w)).
Proof.
  intros Hreach.
  pose proof (reachable_armed_signal_number h w Hreach) as Hnum.
  pose proof (armed_signal_number_defined w Hnum) as Hdef.
  split; [exact Hdef|].
  split; [intros w' Hstep; exact (step_armed_signal_defined w w' Hstep Hdef)|].
  split.
  { intros Hflag. destruct (Hnum Hflag) as [n Hn].
    exists (SigInt n). unfold getattr_signal. rewrite Hn. reflexivity. }
  split.
  { intros Hhost. split.
    - intros Hraise. destruct (disable_raises w _ Hnum Hraise) as [c Hc].
      exact (Hhost c Hc).
    - intros tid exc Hraise.
      destruct (raise_thread_exception_raises tid exc w _ Hnum Hraise)
        as (_ & sig & Hc).
      exact (Hhost _ Hc). }
  intros Hnone. split.
  - destruct (system_call_interruptable w) eqn:Hflag; [|reflexivity].
    destruct (Hdef Hflag) as [v Hv]. congruence.
  - apply enable_noop. auto.
Qed.

Lemma armed_signal_always_resolves_witness :
  let w := snd (enable_system_call_interruptable_support (module_load cpython_host)) in
  let w0 := module_load misconfigured_host in
  reachable cpython_host w /\
  system_call_interruptable w = true /\
  armed_signal_defined w /\
  (exists sig, getattr_signal (system_call_interrupt_signal w) w = (Return sig, w)) /\
  fst (disable_system_call_interruptable_support w) <> Raise AttributeError /\
  signal_module w0 !! system_call_interrupt_signal w0 = None /\
  enable_system_call_interruptable_support w0 = (Return PyNone, w0).
Proof.
  pose (w := snd (enable_system_call_interruptable_support (module_load cpython_host))).
  pose (w0 := module_load misconfigured_host).
  assert (Hreach : reachable cpython_host w).
  { exact (reach_step _ _ _ (reach_load cpython_host) (step_enable _)). }
  destruct (armed_signal_always_resolves cpython_host w Hreach)
    as (Hdef & _ & Hget & Hhost & _).
  destruct (armed_signal_always_resolves misconfigured_host w0
              (reach_load misconfigured_host))
    as (_ & _ & _ & _ & Hundefined).
  assert (Hnone : signal_module w0 !! system_call_interrupt_signal w0 = None)
    by (vm_compute; reflexivity).
  split; [exact Hreach|].
  split; [vm_compute; reflexivity|].
  split; [exact Hdef|].
  split; [apply Hget; vm_compute; reflexivity|].
  assert (Hok : forall c, host_error w c <> Some AttributeError)
    by (intros c; vm_compute; discriminate).
  split; [exact (proj1 (Hhost Hok))|].
  split; [exact Hnone | exact (proj2 (Hundefined Hnone))].
Defined.

(** ** Ordering and the wake signal *)

Section WakeSignal.

(** The trace [raise_thread_exception] adds on CPython. *)
Lemma raise_thread_exception_new_calls thread_id exception w :
  current_platform w = "CPython" ->
  armed_signal_number w ->
  let n := delivery_count w thread_id in
  let id := marshalled_id w thread_id in
  new_calls w (snd (raise_thread_exception thread_id exception w)) =
  CallSetAsyncExc id (Some exception) ::
  (if 1 <? n then [CallSetAsyncExc id None] else []) ++
  (if (n =? 1) && system_call_interruptable w then
     match signal_module w !! system_call_interrupt_signal w with
     | Some sig => [CallPthreadKill thread_id sig]
     | None => []
     end
   else []).
Proof.
  intros Hplat Hinv n id.
  pose proof (injection_calls thread_id exception w) as Hcalls.
  cbv zeta in Hcalls. fold n id in Hcalls.
  unfold new_calls.
  rewrite (raise_thread_exception_cpython_eq _ _ _ Hplat). fold n.
  destruct (n =? 1) eqn:E1; cbn [andb].
  2:{ cbn [snd]. rewrite Hcalls, drop_app_length, app_nil_r. reflexivity. }
  destruct (system_call_interruptable w) eqn:Hflag.
  2:{ cbn [snd]. rewrite Hcalls, drop_app_length, app_nil_r. reflexivity. }
  destruct (Hinv Hflag) as [s Hs]. rewrite Hs. cbv zeta.
  assert (Hw2 : forall w2,
    calls w2 = calls (snd (_raise_thread_exception_cpython thread_id exception w)) ++
               [CallPthreadKill thread_id (SigInt s)] ->
    drop (length (calls w)) (calls w2) =
    CallSetAsyncExc id (Some exception) ::
    (if 1 <? n then [CallSetAsyncExc id None] else []) ++
    [CallPthreadKill thread_id (SigInt s)]).
  { intros w2 ->. rewrite Hcalls, <- app_assoc, drop_app_length. reflexivity. }
  destruct (host_error w (CallPthreadKill thread_id (SigInt s))) as [e|];
    [destruct (decide (e = ProcessLookupError))|]; apply Hw2; reflexivity.
Qed.

(** The signals [raise_thread_exception] sends on CPython. *)
Lemma raise_thread_exception_delivered thread_id exception w :
  current_platform w = "CPython" ->
  delivered (snd (raise_thread_exception thread_id exception w)) =
  delivered w ++
  (if (delivery_count w thread_id =? 1) && system_call_interruptable w then
     match signal_module w !! system_call_interrupt_signal w with
     | Some (SigInt s) =>
         match host_error w (CallPthreadKill thread_id (SigInt s)) with
         | None => [(thread_id, s)]
         | Some _ => []
         end
     | _ => []
     end
   else []).
Proof.
  intros Hplat.
  pose proof (_raise_thread_exception_cpython_frame thread_id exception w)
    as (_ & _ & _ & _ & _ & _ & _ & _ & Hdel & _).
  cbv zeta in Hdel.
  rewrite (raise_thread_exception_cpython_eq _ _ _ Hplat).
  destruct (_ && _); [|cbn [snd]; rewrite Hdel, app_nil_r; reflexivity].
  destruct (signal_module w !! system_call_interrupt_signal w) as [[s|]|];
    cbv zeta; cbn [snd delivered record_call];
    try (rewrite Hdel, app_nil_r; reflexivity).
  destruct (host_error w (CallPthreadKill thread_id (SigInt s))) as [e|].
  - destruct (decide (e = ProcessLookupError)); cbn [snd delivered record_call];
      rewrite Hdel, app_nil_r; reflexivity.
  - reflexivity.
Qed.

End WakeSignal.

(** C4: on CPython, in a reachable world, [raise_thread_exception] first
    calls the runtime to inject the exception; then, when the count is above
    1, it calls it again to retract; and last, exactly when the count is 1
    and the flag is set, it calls [pthread_kill] on the same thread with the
    configured signal.  So a [pthread_kill] call is in the trace if and only
    if the count was 1 and the flag was set, and any such call comes after
    the injection.  No signal is sent otherwise, and the signal is sent
    when the host accepts that call. *)
Theorem wake_signal_iff_injected_once_and_armed
  (h : Host) (w : World) (thread_id : Z) (exception : pyobj) :
  reachable h w ->
  current_platform w = "CPython" ->
  let n := delivery_count w thread_id in
  let id := marshalled_id w thread_id in
  let added := new_calls w (snd (raise_thread_exception thread_id exception w)) in
  fst (_raise_thread_exception_cpython thread_id exception w) = Return (PyInt n) /\
  added =
    CallSetAsyncExc id (Some exception) ::
    (if 1 <? n then [CallSetAsyncExc id None] else []) ++
    (if (n =? 1) && system_call_interruptable w then
       match signal_module w !! system_call_interrupt_signal w with
       | Some sig => [CallPthreadKill thread_id sig]
       | None => []
       end
     else []) /\
  ((exists sig, In (CallPthreadKill thread_id sig) added) <->
   n = 1 /\ system_call_interruptable w = true) /\
  (forall c, In c added -> is_kill c = true ->
     exists sig, c = CallPthreadKill thread_id sig /\
       signal_module w !! system_call_interrupt_signal w = Some sig) /\
  (forall before c after, added = before ++ c :: after -> is_kill c = true ->
     exists rest, before = CallSetAsyncExc id (Some exception) :: rest) /\
  delivered (snd (raise_thread_exception thread_id exception w)) =
    delivered w ++
    (if (n =? 1) && system_call_interruptable w then
       match signal_module w !! system_call_interrupt_signal w with
       | Some (SigInt s) =>
           match host_error w (CallPthreadKill thread_id (SigInt s)) with
           | None => [(thread_id, s)]
           | Some _ => []
           end
       | _ => []
       end
     else []).
Proof.
  intros Hreach Hplat n id added.
  pose proof (reachable_armed_signal_number h w Hreach) as Hinv.
  pose proof (raise_thread_exception_new_calls thread_id exception w Hplat Hinv)
    as Hadded.
  cbv zeta in Hadded. fold n id added in Hadded.
  split; [rewrite _raise_thread_exception_cpython_eq; reflexivity|].
  split; [exact Hadded|].
  assert (Hkills : forall c, In c added -> is_kill c = true ->
    n = 1 /\ system_call_interruptable w = true /\
    exists sig, c = CallPthreadKill thread_id sig /\
      signal_module w !! system_call_interrupt_signal w = Some sig).
  { intros c Hin Hkill. rewrite Hadded in Hin.
    destruct Hin as [<- | Hin]; [discriminate|].
    apply in_app_or in Hin as [Hin | Hin].
    - destruct (1 <? n); [|contradiction].
      destruct Hin as [<- | []]. discriminate.
    - destruct (n =? 1) eqn:E1; [|contradiction].
      destruct (system_call_interruptable w); [|contradiction].
      cbn [andb] in Hin.
      destruct (signal_module w !! system_call_interrupt_signal w) as [sig|];
        [|contradiction].
      destruct Hin as [<- | []]. apply Z.eqb_eq in E1. eauto. }
  split.
  { split.
    - intros [sig Hin]. destruct (Hkills _ Hin eq_refl) as (H1 & H2 & _). auto.
    - intros [H1 Hflag]. destruct (Hinv Hflag) as [s Hs].
      exists (SigInt s). rewrite Hadded, H1, Hflag, Hs. cbn. auto. }
  split.
  { intros c Hin Hkill. destruct (Hkills c Hin Hkill) as (_ & _ & H). exact H. }
  split; [|exact (raise_thread_exception_delivered thread_id exception w Hplat)].
  intros before c after Hsplit Hkill.
  destruct before as [|b before].
  - rewrite Hadded in Hsplit. cbn [app] in Hsplit.
    injection Hsplit as <- _. discriminate.
  - exists before. rewrite Hadded in Hsplit. cbn [app] in Hsplit.
    injection Hsplit as <- _. reflexivity.
Qed.

Lemma wake_signal_iff_injected_once_and_armed_witness :
  let w := snd (enable_system_call_interruptable_support (module_load cpython_host)) in
  reachable cpython_host w /\
  current_platform w = "CPython" /\
  (exists sig,
     In (CallPthreadKill 7 sig)
        (new_calls w (snd (raise_thread_exception 7 (PyType MyInterrupt) w)))) /\
  ~ (exists sig,
       In (CallPthreadKill 5 sig)
          (new_calls w (snd (raise_thread_exception 5 (PyType MyInterrupt) w)))).
Proof.
  pose (w := snd (enable_system_call_interruptable_support (module_load cpython_host))).
  assert (Hreach : reachable cpython_host w).
  { exact (reach_step _ _ _ (reach_load cpython_host) (step_enable _)). }
  assert (Hplat : current_platform w = "CPython") by (vm_compute; reflexivity).
  split; [exact Hreach|].
  split; [exact Hplat|].
  split.
  - destruct (wake_signal_iff_injected_once_and_armed cpython_host w 7
                (PyType MyInterrupt) Hreach Hplat) as (_ & _ & Hiff & _).
    apply Hiff. split; vm_compute; reflexivity.
  - destruct (wake_signal_iff_injected_once_and_armed cpython_host w 5
                (PyType MyInterrupt) Hreach Hplat) as (_ & _ & Hiff & _).
    intros Hkill. apply Hiff in Hkill. destruct Hkill as [Hcount _].
    vm_compute in Hcount. discriminate Hcount.
Defined.

(** ** The outcome of the wake signal *)

Section WakeOutcome.

(** Replacing the host's answers changes nothing the injector does. *)
Lemma _raise_thread_exception_cpython_set_host_error f thread_id exception w :
  _raise_thread_exception_cpython thread_id exception (set_host_error f w) =
  (fst (_raise_thread_exception_cpython thread_id exception w),
   set_host_error f (snd (_raise_thread_exception_cpython thread_id exception w))).
Proof.
  rewrite !_raise_thread_exception_cpython_eq. cbn [fst snd].
  unfold delivery_count, marshalled_id. cbn [tstates python_version set_host_error].
  destruct (_ =? 0); [reflexivity|].
  destruct (1 <? _); reflexivity.
Qed.

(** On CPython, with one thread state found, the flag set and the signal a
    number, the operation returns [None] whether the host sends the signal or
    raises [ProcessLookupError]; the two runs differ in the signals sent
    only. *)
Lemma raise_thread_exception_wake_outcome thread_id exception w s e :
  current_platform w = "CPython" ->
  system_call_interruptable w = true ->
  delivery_count w thread_id = 1 ->
  signal_module w !! system_call_interrupt_signal w = Some (SigInt s) ->
  host_error w (CallPthreadKill thread_id (SigInt s)) = e ->
  e = None \/ e = Some ProcessLookupError ->
  let w1 := snd (_raise_thread_exception_cpython thread_id exception w) in
  raise_thread_exception thread_id exception w =
  (Return PyNone,
   let w2 := record_call (CallPthreadKill thread_id (SigInt s)) w1 in
   match e with
   | None => set_delivered (delivered w ++ [(thread_id, s)]) w2
   | Some _ => w2
   end).
Proof.
  intros Hplat Hflag Hn Hs He Hcase w1.
  rewrite (raise_thread_exception_cpython_eq _ _ _ Hplat).
  rewrite Hn, Hflag, Hs, He. cbn [Z.eqb Pos.eqb andb]. cbv zeta. fold w1.
  destruct Hcase as [-> | ->]; [reflexivity|].
  destruct (decide _) as [_|Hne]; [reflexivity | contradiction Hne; reflexivity].
Qed.

End WakeOutcome.

(** C8: on CPython, in a reachable world with the flag set and one thread
    state found, when the host answers [pthread_kill] on that thread with
    [ProcessLookupError], [raise_thread_exception] still makes the call,
    returns [None] and logs and prints nothing; its result, its log, its
    trace of calls, the thread states and the flag are those of the run in
    which the host accepts every call.  No signal is recorded as sent. *)
Theorem process_lookup_error_swallowed
  (h : Host) (w : World) (thread_id : Z) (exception : pyobj) :
  reachable h w ->
  current_platform w = "CPython" ->
  system_call_interruptable w = true ->
  delivery_count w thread_id = 1 ->
  (forall sig, host_error w (CallPthreadKill thread_id sig) = Some ProcessLookupError) ->
  let r := raise_thread_exception thread_id exception w in
  let r_ok :=
    raise_thread_exception thread_id exception (set_host_error (fun _ => None) w) in
  fst r = Return PyNone /\
  (exists sig, last (calls (snd r)) = Some (CallPthreadKill thread_id sig)) /\
  log (snd r) = log w /\
  stdout (snd r) = stdout w /\
  delivered (snd r) = delivered w /\
  fst r = fst r_ok /\
  log (snd r) = log (snd r_ok) /\
  calls (snd r) = calls (snd r_ok) /\
  tstates (snd r) = tstates (snd r_ok) /\
  system_call_interruptable (snd r) = system_call_interruptable (snd r_ok).
Proof.
  intros Hreach Hplat Hflag Hn Hgone r r_ok.
  destruct (reachable_armed_signal_number h w Hreach Hflag) as [s Hs].
  pose proof (raise_thread_exception_wake_outcome thread_id exception w s
                (Some ProcessLookupError) Hplat Hflag Hn Hs (Hgone _)
                (or_intror eq_refl)) as Hr.
  pose proof (raise_thread_exception_wake_outcome thread_id exception
                (set_host_error (fun _ => None) w) s None Hplat Hflag Hn Hs
                eq_refl (or_introl eq_refl)) as Hok.
  cbv zeta in Hr, Hok.
  rewrite _raise_thread_exception_cpython_set_host_error in Hok. cbn [snd] in Hok.
  pose proof (_raise_thread_exception_cpython_frame thread_id exception w)
    as (_ & _ & Hflag1 & _ & _ & _ & _ & _ & Hdel & Hout).
  pose proof (injection_log thread_id exception w) as Hlog.
  cbv zeta in Hflag1, Hdel, Hout, Hlog.
  rewrite Hn in Hlog. cbn [Z.eqb Z.ltb Z.compare Pos.compare Pos.compare_cont] in Hlog.
  rewrite app_nil_r in Hlog.
  subst r r_ok. rewrite Hr, Hok. cbn [fst snd].
  split; [reflexivity|].
  split.
  { exists (SigInt s). cbn [calls record_call]. apply last_snoc. }
  cbn [log stdout delivered calls tstates system_call_interruptable
       record_call set_delivered set_host_error].
  repeat split; assumption.
Qed.

Lemma process_lookup_error_swallowed_witness :
  let w := snd (enable_system_call_interruptable_support (module_load racing_host)) in
  let r := raise_thread_exception 7 (PyInstance MyInterrupt) w in
  fst r = Return PyNone /\
  log (snd r) = [] /\
  delivered (snd r) = [].
Proof.
  pose (w := snd (enable_system_call_interruptable_support (module_load racing_host))).
  assert (Hreach : reachable racing_host w).
  { exact (reach_step _ _ _ (reach_load racing_host) (step_enable _)). }
  assert (Hplat : current_platform w = "CPython") by (vm_compute; reflexivity).
  assert (Hflag : system_call_interruptable w = true) by (vm_compute; reflexivity).
  assert (Hcount : delivery_count w 7 = 1) by (vm_compute; reflexivity).
  assert (Hgone : forall sig,
            host_error w (CallPthreadKill 7 sig) = Some ProcessLookupError)
    by (intros sig; vm_compute; reflexivity).
  destruct (process_lookup_error_swallowed racing_host w 7 (PyInstance MyInterrupt)
              Hreach Hplat Hflag Hcount Hgone)
    as (Hret & _ & Hlog & _ & Hdel & _).
  split; [exact Hret|].
  split.
  - exact (eq_trans Hlog ltac:(vm_compute; reflexivity)).
  - exact (eq_trans Hdel ltac:(vm_compute; reflexivity)).
Defined.

(** C1, as the code has it: [raise_thread_exception] has no [return]
    statement.  In a reachable world, whenever the host either sends the
    wake signal or answers it with [ProcessLookupError], the operation
    returns [None]: on every platform, for every delivery count of the
    injection and for either outcome of the wake signal.  The count is what
    the inner injector returns. *)
Theorem raise_thread_exception_returns_None
  (h : Host) (w : World) (thread_id : Z) (exception : pyobj) :
  reachable h w ->
  (forall sig,
     host_error w (CallPthreadKill thread_id sig) = None \/
     host_error w (CallPthreadKill thread_id sig) = Some ProcessLookupError) ->
  fst (raise_thread_exception thread_id exception w) = Return PyNone /\
  fst (_raise_thread_exception_cpython thread_id exception w) =
    Return (PyInt (delivery_count w thread_id)).
Proof.
  intros Hreach Hhost.
  split; [|rewrite _raise_thread_exception_cpython_eq; reflexivity].
  pose proof (reachable_armed_signal_number h w Hreach) as Hinv.
  destruct (fst (raise_thread_exception thread_id exception w)) as [v|e] eqn:R.
  - revert R.
    destruct (String.eqb (current_platform w) "CPython") eqn:P.
    + apply String.eqb_eq in P. rewrite (raise_thread_exception_cpython_eq _ _ _ P).
      destruct (_ && _); [|intros [= <-]; reflexivity].
      destruct (signal_module w !! system_call_interrupt_signal w) as [[s|]|];
        [|discriminate..].
      cbv zeta.
      destruct (host_error w _) as [e|]; [|intros [= <-]; reflexivity].
      destruct (decide _); [intros [= <-]; reflexivity | discriminate].
    + apply String.eqb_neq in P.
      rewrite (raise_thread_exception_other_platform_eq _ _ _ P).
      intros [= <-]. reflexivity.
  - destruct (raise_thread_exception_raises thread_id exception w e Hinv R)
      as (Hne & sig & Hsig).
    destruct (Hhost sig) as [H | H]; congruence.
Qed.

Lemma raise_thread_exception_returns_None_witness :
  let w := snd (enable_system_call_interruptable_support (module_load racing_host)) in
  fst (raise_thread_exception 7 (PyInstance MyInterrupt) w) = Return PyNone /\
  fst (raise_thread_exception 1 (PyInstance MyInterrupt) w) = Return PyNone /\
  fst (raise_thread_exception 5 (PyInstance MyInterrupt) w) = Return PyNone.
Proof.
  pose (w := snd (enable_system_call_interruptable_support (module_load racing_host))).
  assert (Hreach : reachable racing_host w).
  { exact (reach_step _ _ _ (reach_load racing_host) (step_enable _)). }
  assert (H7 : forall sig,
            host_error w (CallPthreadKill 7 sig) = None \/
            host_error w (CallPthreadKill 7 sig) = Some ProcessLookupError)
    by (intros sig; right; vm_compute; reflexivity).
  assert (H1 : forall sig,
            host_error w (CallPthreadKill 1 sig) = None \/
            host_error w (CallPthreadKill 1 sig) = Some ProcessLookupError)
    by (intros sig; left; vm_compute; reflexivity).
  assert (H5 : forall sig,
            host_error w (CallPthreadKill 5 sig) = None \/
            host_error w (CallPthreadKill 5 sig) = Some ProcessLookupError)
    by (intros sig; left; vm_compute; reflexivity).
  split; [|split].
  - exact (proj1 (raise_thread_exception_returns_None racing_host w 7
                    (PyInstance MyInterrupt) Hreach H7)).
  - exact (proj1 (raise_thread_exception_returns_None racing_host w 1
                    (PyInstance MyInterrupt) Hreach H1)).
  - exact (proj1 (raise_thread_exception_returns_None racing_host w 5
                    (PyInstance MyInterrupt) Hreach H5)).
Defined.

(** C1, as stated, fails: on a freshly loaded module an injection that
    reaches one thread state (count 1) and one that reaches none (count 0)
    give the same result, [None]. *)
Lemma raise_thread_exception_result_hides_count :
  let w := module_load cpython_host in
  fst (_raise_thread_exception_cpython 7 (PyType MyInterrupt) w) = Return (PyInt 1) /\
  fst (_raise_thread_exception_cpython 5 (PyType MyInterrupt) w) = Return (PyInt 0) /\
  fst (raise_thread_exception 7 (PyType MyInterrupt) w) = Return PyNone /\
  fst (raise_thread_exception 5 (PyType MyInterrupt) w) = Return PyNone /\
  ~ (exists success : outcome pyvalue -> bool,
       forall thread_id,
         success (fst (raise_thread_exception thread_id (PyType MyInterrupt) w)) = true <->
         fst (_raise_thread_exception_cpython thread_id (PyType MyInterrupt) w) =
           Return (PyInt 1)).
Proof.
  cbv zeta.
  assert (R7 : fst (raise_thread_exception 7 (PyType MyInterrupt)
                      (module_load cpython_host)) = Return PyNone)
    by (vm_compute; reflexivity).
  assert (R5 : fst (raise_thread_exception 5 (PyType MyInterrupt)
                      (module_load cpython_host)) = Return PyNone)
    by (vm_compute; reflexivity).
  assert (I7 : fst (_raise_thread_exception_cpython 7 (PyType MyInterrupt)
                      (module_load cpython_host)) = Return (PyInt 1))
    by (vm_compute; reflexivity).
  assert (I5 : fst (_raise_thread_exception_cpython 5 (PyType MyInterrupt)
                      (module_load cpython_host)) = Return (PyInt 0))
    by (vm_compute; reflexivity).
  repeat (split; [assumption|]).
  intros [success H].
  pose proof (proj2 (H 7) I7) as H7. pose proof (proj1 (H 5)) as H5.
  rewrite R7 in H7. rewrite R5 in H5. specialize (H5 H7).
  rewrite I5 in H5. discriminate H5.
Qed.

(** * Further properties *)

(** ** Failure and lifecycle of the controller *)

Section ControllerFailure.

(** A [configure] that raises leaves the flag and the dispositions. *)
Lemma configure_raise_keeps armed h w e :
  fst (configure armed h w) = Raise e ->
  system_call_interruptable (snd (configure armed h w)) = system_call_interruptable w /\
  handlers (snd (configure armed h w)) = handlers w.
Proof.
  rewrite configure_eq.
  destruct (signal_module w !! system_call_interrupt_signal w) as [[n|]|];
    [|intros _; split; reflexivity..].
  cbv zeta.
  destruct (host_error w (CallSiginterrupt (SigInt n) armed));
    [intros _; split; reflexivity|].
  destruct (host_error w (CallSignal (SigInt n) h));
    [intros _; split; reflexivity | discriminate].
Qed.

End ControllerFailure.

(** X6: when [enable] or [disable] raises, the flag and the signal
    dispositions are as before the call: a failed [enable] leaves the
    controller disarmed, a failed [disable] leaves it armed. *)
Theorem failed_configuration_keeps_flag (w : World) (e : pyexc) :
  (fst (enable_system_call_interruptable_support w) = Raise e ->
   system_call_interruptable w = false /\
   system_call_interruptable (snd (enable_system_call_interruptable_support w)) = false /\
   handlers (snd (enable_system_call_interruptable_support w)) = handlers w) /\
  (fst (disable_system_call_interruptable_support w) = Raise e ->
   system_call_interruptable w = true /\
   system_call_interruptable (snd (disable_system_call_interruptable_support w)) = true /\
   handlers (snd (disable_system_call_interruptable_support w)) = handlers w).
Proof.
  split.
  - rewrite enable_configure.
    destruct (negb _ && _) eqn:C; [|discriminate].
    intros R. destruct (configure_raise_keeps _ _ _ _ R) as [Hflag Hh].
    assert (Hoff : system_call_interruptable w = false)
      by (destruct (system_call_interruptable w); [discriminate C | reflexivity]).
    split; [exact Hoff|]. split; [rewrite Hflag; exact Hoff | exact Hh].
  - rewrite disable_configure.
    destruct (system_call_interruptable w) eqn:C; [|discriminate].
    intros R. destruct (configure_raise_keeps _ _ _ _ R) as [Hflag Hh].
    split; [reflexivity|]. split; [rewrite Hflag; exact C | exact Hh].
Qed.

Lemma failed_configuration_keeps_flag_witness :
  let w := module_load worker_thread_host in
  fst (enable_system_call_interruptable_support w) = Raise ValueError /\
  system_call_interruptable (snd (enable_system_call_interruptable_support w)) = false /\
  handlers (snd (enable_system_call_interruptable_support w)) = handlers w.
Proof.
  pose (w := module_load worker_thread_host).
  assert (R : fst (enable_system_call_interruptable_support w) = Raise ValueError)
    by (vm_compute; reflexivity).
  destruct (proj1 (failed_configuration_keeps_flag w ValueError) R)
    as (_ & Hoff & Hh).
  split; [exact R|].
  split; [exact Hoff | exact Hh].
Defined.

(** X7: when the host accepts [siginterrupt] and then refuses
    [signal.signal], [enable] raises that error with the flag still cleared
    and no handler installed, but the restart behaviour of the signal is
    already changed: the configuration is not undone. *)
Theorem enable_refused_after_siginterrupt (w : World) (n : Z) (e : pyexc) :
  system_call_interruptable w = false ->
  signal_module w !! system_call_interrupt_signal w = Some (SigInt n) ->
  host_error w (CallSiginterrupt (SigInt n) true) = None ->
  host_error w (CallSignal (SigInt n) installed_handler) = Some e ->
  let w' := snd (enable_system_call_interruptable_support w) in
  fst (enable_system_call_interruptable_support w) = Raise e /\
  system_call_interruptable w' = false /\
  handlers w' = handlers w /\
  interrupting w' !! n = Some true /\
  new_calls w w' =
    [CallSiginterrupt (SigInt n) true; CallSignal (SigInt n) installed_handler].
Proof.
  intros Hflag Hsig H1 H2 w'. subst w'. unfold installed_handler in *.
  rewrite enable_configure, Hflag, Hsig. cbn [negb andb].
  rewrite bool_decide_true by eauto.
  rewrite configure_eq, Hsig, H1, H2. cbv zeta. cbn [fst snd].
  split; [reflexivity|]. split; [exact Hflag|]. split; [reflexivity|].
  split.
  - cbn [interrupting record_call set_interrupting]. apply lookup_insert_eq.
  - unfold new_calls. cbn [calls record_call set_interrupting].
    rewrite <- app_assoc. apply drop_app_length.
Qed.

Lemma enable_refused_after_siginterrupt_witness :
  let w := module_load worker_thread_host in
  let w' := snd (enable_system_call_interruptable_support w) in
  interrupting w !! 10 = None /\
  fst (enable_system_call_interruptable_support w) = Raise ValueError /\
  system_call_interruptable w' = false /\
  interrupting w' !! 10 = Some true.
Proof.
  pose (w := module_load worker_thread_host).
  assert (Hflag : system_call_interruptable w = false) by (vm_compute; reflexivity).
  assert (Hsig : signal_module w !! system_call_interrupt_signal w = Some (SigInt 10))
    by (vm_compute; reflexivity).
  assert (H1 : host_error w (CallSiginterrupt (SigInt 10) true) = None)
    by (vm_compute; reflexivity).
  assert (H2 : host_error w (CallSignal (SigInt 10) installed_handler) = Some ValueError)
    by (vm_compute; reflexivity).
  destruct (enable_refused_after_siginterrupt w 10 ValueError Hflag Hsig H1 H2)
    as (R & Hoff & _ & Hintr & _).
  split; [vm_compute; reflexivity|].
  split; [exact R|].
  split; [exact Hoff | exact Hintr].
Defined.

(** X8: [enable] followed by [disable], on a host that accepts the four
    calls, ends disarmed with the default disposition for the signal,
    whatever its disposition was before [enable]: the earlier disposition is
    not restored.  The signal ends marked as interrupting, because the last
    [signal.signal] resets the restart behaviour that [siginterrupt(sig,
    False)] had just set.  Nothing else of the world changes but the
    trace. *)
Theorem enable_then_disable (w : World) (n : Z) :
  system_call_interruptable w = false ->
  signal_module w !! system_call_interrupt_signal w = Some (SigInt n) ->
  host_error w (CallSiginterrupt (SigInt n) true) = None ->
  host_error w (CallSignal (SigInt n) installed_handler) = None ->
  host_error w (CallSiginterrupt (SigInt n) false) = None ->
  host_error w (CallSignal (SigInt n) SIG_DFL) = None ->
  let w1 := snd (enable_system_call_interruptable_support w) in
  let w2 := snd (disable_system_call_interruptable_support w1) in
  fst (enable_system_call_interruptable_support w) = Return PyNone /\
  fst (disable_system_call_interruptable_support w1) = Return PyNone /\
  system_call_interruptable w2 = false /\
  handlers w2 !! n = Some SIG_DFL /\
  interrupting w2 !! n = Some true /\
  (forall m, m <> n -> handlers w2 !! m = handlers w !! m /\
                       interrupting w2 !! m = interrupting w !! m) /\
  new_calls w w2 =
    [CallSiginterrupt (SigInt n) true; CallSignal (SigInt n) installed_handler;
     CallSiginterrupt (SigInt n) false; CallSignal (SigInt n) SIG_DFL] /\
  tstates w2 = tstates w /\ delivered w2 = delivered w /\
  log w2 = log w /\ stdout w2 = stdout w.
Proof.
  intros Hflag Hsig H1 H2 H3 H4 w1 w2. unfold installed_handler in *.
  pose proof (enable_arms_eq w n Hflag Hsig H1 H2) as E1.
  subst w2 w1. rewrite E1. cbn [fst snd].
  rewrite disable_configure.
  cbn [system_call_interruptable set_system_call_interruptable].
  rewrite configure_eq.
  cbn [signal_module system_call_interrupt_signal host_error handlers interrupting
       set_system_call_interruptable set_handlers record_call set_interrupting].
  rewrite Hsig, H3, H4. cbv zeta. cbn [fst snd].
  split; [reflexivity|]. split; [reflexivity|]. split; [reflexivity|].
  cbn [handlers interrupting tstates delivered log stdout calls
       set_system_call_interruptable set_handlers record_call set_interrupting].
  split; [apply lookup_insert_eq|].
  split; [apply lookup_insert_eq|].
  split.
  { intros m Hm. rewrite !lookup_insert_ne by congruence. split; reflexivity. }
  split; [|repeat split].
  unfold new_calls.
  cbn [calls set_system_call_interruptable set_handlers record_call set_interrupting].
  rewrite <- !app_assoc. apply drop_app_length.
Qed.

Lemma enable_then_disable_witness :
  let w := module_load ignoring_host in
  let w1 := snd (enable_system_call_interruptable_support w) in
  let w2 := snd (disable_system_call_interruptable_support w1) in
  handlers w !! 10 = Some SIG_IGN /\
  system_call_interruptable w2 = false /\
  handlers w2 !! 10 = Some SIG_DFL /\
  interrupting w2 !! 10 = Some true.
Proof.
  pose (w := module_load ignoring_host).
  assert (Hflag : system_call_interruptable w = false) by (vm_compute; reflexivity).
  assert (Hsig : signal_module w !! system_call_interrupt_signal w = Some (SigInt 10))
    by (vm_compute; reflexivity).
  assert (H1 : host_error w (CallSiginterrupt (SigInt 10) true) = None)
    by (vm_compute; reflexivity).
  assert (H2 : host_error w (CallSignal (SigInt 10) installed_handler) = None)
    by (vm_compute; reflexivity).
  assert (H3 : host_error w (CallSiginterrupt (SigInt 10) false) = None)
    by (vm_compute; reflexivity).
  assert (H4 : host_error w (CallSignal (SigInt 10) SIG_DFL) = None)
    by (vm_compute; reflexivity).
  destruct (enable_then_disable w 10 Hflag Hsig H1 H2 H3 H4)
    as (_ & _ & Hoff & Hdfl & Hintr & _).
  split; [vm_compute; reflexivity|].
  split; [exact Hoff|].
  split; [exact Hdfl | exact Hintr].
Defined.

(** ** The handler is installed exactly while armed *)

Section InstalledHandler.

(** What [configure] does to the flag and the dispositions: nothing, or the
    flag is set as asked and the disposition of the signal replaced. *)
Lemma configure_outcome armed h w :
  let w' := snd (configure armed h w) in
  (system_call_interruptable w' = system_call_interruptable w /\
   handlers w' = handlers w) \/
  (exists n,
     signal_module w !! system_call_interrupt_signal w = Some (SigInt n) /\
     system_call_interruptable w' = armed /\
     handlers w' = <[n := h]> (handlers w)).
Proof.
  cbv zeta. rewrite configure_eq.
  destruct (signal_module w !! system_call_interrupt_signal w) as [[n|]|];
    [|left; split; reflexivity..].
  cbv zeta.
  destruct (host_error w (CallSiginterrupt (SigInt n) armed));
    [left; split; reflexivity|].
  destruct (host_error w (CallSignal (SigInt n) h));
    [left; split; reflexivity|].
  right. exists n. repeat split.
Qed.

(** [raise_thread_exception] leaves the controller and standard output. *)
Lemma raise_thread_exception_keeps_controller thread_id exception w :
  let w' := snd (raise_thread_exception thread_id exception w) in
  handlers w' = handlers w /\
  interrupting w' = interrupting w /\
  host_error w' = host_error w /\
  stdout w' = stdout w.
Proof.
  cbv zeta.
  destruct (String.eqb (current_platform w) "CPython") eqn:P.
  - apply String.eqb_eq in P.
    pose proof (_raise_thread_exception_cpython_frame thread_id exception w)
      as (_ & _ & _ & _ & _ & H1 & H2 & H3 & _ & H4).
    cbv zeta in H1, H2, H3, H4.
    rewrite (raise_thread_exception_cpython_eq _ _ _ P).
    destruct (_ && _); [|repeat split; assumption].
    destruct (signal_module w !! system_call_interrupt_signal w) as [[n|]|];
      [|repeat split; assumption..].
    cbv zeta.
    destruct (host_error w _) as [e|]; [|repeat split; assumption].
    destruct (decide _); repeat split; assumption.
  - apply String.eqb_neq in P.
    rewrite (raise_thread_exception_other_platform_eq _ _ _ P).
    repeat split.
Qed.

Lemma configure_installed_iff_armed armed h w :
  (armed = true /\ h = installed_handler \/ armed = false /\ h = SIG_DFL) ->
  installed_iff_armed w ->
  installed_iff_armed (snd (configure armed h w)).
Proof.
  intros Hop Hinv n.
  pose proof (configure_host_moves armed h w) as (_ & _ & Hname & Hsm & _).
  cbv zeta in Hname, Hsm. rewrite Hname, Hsm. intros Hn.
  destruct (configure_outcome armed h w) as [[-> ->] | (m & Hm & -> & ->)].
  - exact (Hinv n Hn).
  - assert (m = n) by congruence. subst m. rewrite lookup_insert_eq.
    destruct Hop as [[-> ->] | [-> ->]]; split; try reflexivity; discriminate.
Qed.

Lemma op_step_installed_iff_armed w w' :
  op_step w w' -> installed_iff_armed w -> installed_iff_armed w'.
Proof.
  intros Hstep Hinv.
  destruct Hstep as [w | w | tid exc w | signum frame w | w w' [Hmoves Hh]].
  - rewrite enable_configure. destruct (negb _ && _); [|exact Hinv].
    apply configure_installed_iff_armed; auto.
  - rewrite disable_configure.
    destruct (system_call_interruptable w); [|exact Hinv].
    apply configure_installed_iff_armed; auto.
  - intros n.
    destruct (raise_thread_exception_host_moves tid exc w)
      as (_ & _ & -> & -> & ->).
    destruct (raise_thread_exception_keeps_controller tid exc w) as (-> & _).
    exact (Hinv n).
  - exact Hinv.
  - intros n. destruct Hmoves as (_ & _ & -> & -> & ->). rewrite Hh.
    exact (Hinv n).
Qed.

End InstalledHandler.

(** X9: in a process in which only this module sets signal dispositions and
    the handler is not installed when the module is loaded, in every world
    reached the flag is set if and only if [interrupt_signal_handler] is the
    disposition of the configured signal. *)
Theorem handler_installed_iff_armed (h : Host) (w : World) (n : Z) :
  (forall m, host_handlers h !! m <> Some installed_handler) ->
  op_reachable h w ->
  signal_module w !! system_call_interrupt_signal w = Some (SigInt n) ->
  (system_call_interruptable w = true <->
   handlers w !! n = Some installed_handler).
Proof.
  intros Hfresh Hreach. revert n.
  change (installed_iff_armed w).
  induction Hreach as [|w w' _ IH Hstep].
  - intros n _. cbn [module_load system_call_interruptable handlers].
    split; [discriminate | intros H; destruct (Hfresh n H)].
  - exact (op_step_installed_iff_armed w w' Hstep IH).
Qed.

Lemma handler_installed_iff_armed_witness :
  let w := snd (enable_system_call_interruptable_support (module_load cpython_host)) in
  let w' := snd (disable_system_call_interruptable_support w) in
  op_reachable cpython_host w /\
  system_call_interruptable w = true /\
  handlers w !! 10 = Some installed_handler /\
  system_call_interruptable w' <> true /\
  handlers w' !! 10 <> Some installed_handler.
Proof.
  pose (w := snd (enable_system_call_interruptable_support (module_load cpython_host))).
  pose (w' := snd (disable_system_call_interruptable_support w)).
  assert (Hfresh : forall m, host_handlers cpython_host !! m <> Some installed_handler).
  { intros m. cbn [host_handlers cpython_host]. rewrite lookup_empty. discriminate. }
  assert (Hreach : op_reachable cpython_host w).
  { exact (op_reach_step _ _ _ (op_reach_load cpython_host) (op_enable _)). }
  assert (Hreach' : op_reachable cpython_host w').
  { exact (op_reach_step _ _ _ Hreach (op_disable _)). }
  assert (Hsig : signal_module w !! system_call_interrupt_signal w = Some (SigInt 10))
    by (vm_compute; reflexivity).
  assert (Hsig' : signal_module w' !! system_call_interrupt_signal w' = Some (SigInt 10))
    by (vm_compute; reflexivity).
  assert (Hflag : system_call_interruptable w = true) by (vm_compute; reflexivity).
  assert (Hflag' : system_call_interruptable w' <> true) by (vm_compute; discriminate).
  split; [exact Hreach|].
  split; [exact Hflag|].
  split.
  { exact (proj1 (handler_installed_iff_armed cpython_host w 10 Hfresh Hreach Hsig) Hflag). }
  split; [exact Hflag'|].
  intros Hinst.
  exact (Hflag' (proj2 (handler_installed_iff_armed cpython_host w' 10 Hfresh Hreach' Hsig')
                   Hinst)).
Defined.

(** ** What the interrupt-a-thread operation touches *)

Section InterruptFrame.

Lemma with_async_exc_ids id exc ts :
  map ts_thread_id (with_async_exc id exc ts) = map ts_thread_id ts.
Proof.
  unfold with_async_exc. rewrite map_map. apply map_ext. intros t.
  destruct (ts_thread_id t =? id); reflexivity.
Qed.

Lemma with_async_exc_others_inv id exc ts t :
  In t (with_async_exc id exc ts) -> ts_thread_id t <> id -> In t ts.
Proof.
  unfold with_async_exc. intros Hin Hne.
  apply in_map_iff in Hin as (t0 & Ht0 & Hin).
  destruct (ts_thread_id t0 =? id) eqn:E.
  - apply Z.eqb_eq in E. subst t. cbn in Hne. contradiction.
  - subst t. exact Hin.
Qed.

(** The thread states [raise_thread_exception] leaves. *)
Lemma raise_thread_exception_tstates thread_id exception w :
  tstates (snd (raise_thread_exception thread_id exception w)) =
  if String.eqb (current_platform w) "CPython" then
    with_async_exc (marshalled_id w thread_id)
      (if 1 <? delivery_count w thread_id then None else Some exception)
      (tstates w)
  else tstates w.
Proof.
  destruct (String.eqb (current_platform w) "CPython") eqn:P.
  - apply String.eqb_eq in P.
    pose proof (injection_tstates thread_id exception w) as Hts. cbv zeta in Hts.
    rewrite (raise_thread_exception_cpython_eq _ _ _ P).
    destruct (_ && _); [|exact Hts].
    destruct (signal_module w !! system_call_interrupt_signal w) as [[n|]|];
      [|exact Hts..].
    cbv zeta.
    destruct (host_error w _) as [e|]; [|exact Hts].
    destruct (decide _); exact Hts.
  - apply String.eqb_neq in P.
    rewrite (raise_thread_exception_other_platform_eq _ _ _ P). reflexivity.
Qed.

(** No thread state is added or removed. *)
Lemma raise_thread_exception_frame_ids thread_id exception w :
  map ts_thread_id (tstates (snd (raise_thread_exception thread_id exception w))) =
  map ts_thread_id (tstates w).
Proof.
  rewrite raise_thread_exception_tstates.
  destruct (String.eqb (current_platform w) "CPython");
    [apply with_async_exc_ids | reflexivity].
Qed.

End InterruptFrame.

(** X10: whatever the platform, the count and the host's answers, and also
    when it raises, [raise_thread_exception] never changes the flag, the
    signal dispositions, the restart behaviour of signals, the [signal]
    module or standard output; it adds and removes no thread state, and the
    thread states of every other thread id are exactly those from before. *)
Theorem raise_thread_exception_frame
  (thread_id : Z) (exception : pyobj) (w : World) :
  let w' := snd (raise_thread_exception thread_id exception w) in
  system_call_interruptable w' = system_call_interruptable w /\
  system_call_interrupt_signal w' = system_call_interrupt_signal w /\
  signal_module w' = signal_module w /\
  handlers w' = handlers w /\
  interrupting w' = interrupting w /\
  stdout w' = stdout w /\
  map ts_thread_id (tstates w') = map ts_thread_id (tstates w) /\
  (forall t, ts_thread_id t <> marshalled_id w thread_id ->
     (In t (tstates w') <-> In t (tstates w))).
Proof.
  intros w'. subst w'.
  destruct (raise_thread_exception_host_moves thread_id exception w)
    as (_ & _ & Hflag & Hname & Hsm).
  destruct (raise_thread_exception_keeps_controller thread_id exception w)
    as (Hh & Hi & _ & Hout).
  repeat (split; [assumption|]).
  rewrite raise_thread_exception_tstates.
  destruct (String.eqb (current_platform w) "CPython").
  - split; [apply with_async_exc_ids|].
    intros t Hne. split.
    + intros Hin. exact (with_async_exc_others_inv _ _ _ _ Hin Hne).
    + intros Hin. exact (with_async_exc_others _ _ _ _ Hin Hne).
  - split; [reflexivity | tauto].
Qed.

(** X11: [raise_thread_exception] never raises [ProcessLookupError], in any
    world and whatever the host answers. *)
Theorem raise_thread_exception_never_process_lookup_error
  (thread_id : Z) (exception : pyobj) (w : World) :
  fst (raise_thread_exception thread_id exception w) <> Raise ProcessLookupError.
Proof.
  destruct (String.eqb (current_platform w) "CPython") eqn:P.
  - apply String.eqb_eq in P. rewrite (raise_thread_exception_cpython_eq _ _ _ P).
    destruct (_ && _); [|discriminate].
    destruct (signal_module w !! system_call_interrupt_signal w) as [[n|]|];
      [|discriminate..].
    cbv zeta.
    destruct (host_error w _) as [e|]; [|discriminate].
    destruct (decide (e = ProcessLookupError)) as [|Hne]; [discriminate|].
    cbn [fst]. congruence.
  - apply String.eqb_neq in P.
    rewrite (raise_thread_exception_other_platform_eq _ _ _ P). discriminate.
Qed.

(** X12: an error of [pthread_kill] other than [ProcessLookupError] is not
    caught: on CPython, armed, with one thread state found, the operation
    raises that error to its caller after the injection, so the exception
    stays pending in the target thread; nothing is logged and no signal is
    sent. *)
Theorem wake_signal_error_propagates
  (thread_id : Z) (exception : pyobj) (w : World) (n : Z) (e : pyexc) :
  current_platform w = "CPython" ->
  system_call_interruptable w = true ->
  delivery_count w thread_id = 1 ->
  signal_module w !! system_call_interrupt_signal w = Some (SigInt n) ->
  host_error w (CallPthreadKill thread_id (SigInt n)) = Some e ->
  e <> ProcessLookupError ->
  let w' := snd (raise_thread_exception thread_id exception w) in
  fst (raise_thread_exception thread_id exception w) = Raise e /\
  tstates w' =
    with_async_exc (marshalled_id w thread_id) (Some exception) (tstates w) /\
  Forall (fun t => ts_thread_id t = marshalled_id w thread_id ->
                   ts_async_exc t = Some exception) (tstates w') /\
  new_calls w w' =
    [CallSetAsyncExc (marshalled_id w thread_id) (Some exception);
     CallPthreadKill thread_id (SigInt n)] /\
  log w' = log w /\
  delivered w' = delivered w.
Proof.
  intros Hplat Hflag Hn Hsig Herr Hne w'.
  assert (Hts : tstates w' =
    with_async_exc (marshalled_id w thread_id) (Some exception) (tstates w)).
  { subst w'. rewrite raise_thread_exception_tstates, Hplat, Hn. reflexivity. }
  pose proof (_raise_thread_exception_cpython_frame thread_id exception w)
    as (_ & _ & _ & _ & _ & _ & _ & _ & Hdel & _).
  pose proof (injection_log thread_id exception w) as Hlog.
  pose proof (injection_calls thread_id exception w) as Hcalls.
  cbv zeta in Hdel, Hlog, Hcalls. rewrite Hn in Hlog, Hcalls.
  cbn [Z.eqb Z.ltb Z.compare Pos.compare Pos.compare_cont] in Hlog, Hcalls.
  rewrite app_nil_r in Hlog.
  split; [|split; [exact Hts|split; [rewrite Hts; apply with_async_exc_slot|]]];
    subst w'; rewrite (raise_thread_exception_cpython_eq _ _ _ Hplat);
    rewrite Hn, Hflag, Hsig, Herr; cbn [Z.eqb Pos.eqb andb]; cbv zeta;
    (destruct (decide (e = ProcessLookupError)); [contradiction|]).
  - reflexivity.
  - cbn [snd]. unfold new_calls. cbn [calls log delivered record_call].
    rewrite Hcalls, <- app_assoc, drop_app_length.
    repeat split; assumption.
Qed.

Lemma wake_signal_error_propagates_witness :
  let w := snd (enable_system_call_interruptable_support (module_load failing_kill_host)) in
  let w' := snd (raise_thread_exception 7 (PyInstance MyInterrupt) w) in
  fst (raise_thread_exception 7 (PyInstance MyInterrupt) w) = Raise OSError /\
  In (TState 7 (Some (PyInstance MyInterrupt))) (tstates w').
Proof.
  intros w w'.
  assert (Hplat : current_platform w = "CPython") by (vm_compute; reflexivity).
  assert (Hflag : system_call_interruptable w = true) by (vm_compute; reflexivity).
  assert (Hn : delivery_count w 7 = 1) by (vm_compute; reflexivity).
  assert (Hsig : signal_module w !! system_call_interrupt_signal w = Some (SigInt 10))
    by (vm_compute; reflexivity).
  assert (Herr : host_error w (CallPthreadKill 7 (SigInt 10)) = Some OSError)
    by (vm_compute; reflexivity).
  assert (Hne : OSError <> ProcessLookupError) by discriminate.
  destruct (wake_signal_error_propagates 7 (PyInstance MyInterrupt) w 10 OSError
              Hplat Hflag Hn Hsig Herr Hne) as (R & Hts & _).
  split; [exact R|].
  unfold w'. rewrite Hts. vm_compute. right. left. reflexivity.
Defined.

(** ** Repeated and stale interrupts *)

Section RepeatedInterrupts.

Lemma raise_thread_exception_keeps_version thread_id exception w :
  current_platform (snd (raise_thread_exception thread_id exception w)) =
    current_platform w /\
  python_version (snd (raise_thread_exception thread_id exception w)) =
    python_version w.
Proof.
  destruct (raise_thread_exception_host_moves thread_id exception w)
    as (H1 & H2 & _).
  split; assumption.
Qed.

(** The count depends on the thread ids only. *)
Lemma count_matching_ids id ts ts' :
  map ts_thread_id ts = map ts_thread_id ts' ->
  count_matching id ts = count_matching id ts'.
Proof.
  unfold count_matching. intros Hids. f_equal. revert ts' Hids.
  induction ts as [|t ts IH]; intros [|t' ts']; cbn [map]; try discriminate.
  - reflexivity.
  - intros [= Ht Hts]. cbn [List.filter]. rewrite Ht.
    destruct (ts_thread_id t' =? id); cbn [length]; rewrite (IH ts' Hts); reflexivity.
Qed.

(** An interrupt does not change which thread states a thread id matches. *)
Lemma raise_thread_exception_keeps_count thread_id exception w tid :
  delivery_count (snd (raise_thread_exception thread_id exception w)) tid =
  delivery_count w tid.
Proof.
  unfold delivery_count, marshalled_id.
  destruct (raise_thread_exception_keeps_version thread_id exception w) as [_ ->].
  apply count_matching_ids, raise_thread_exception_frame_ids.
Qed.

End RepeatedInterrupts.

(** X13: a second interrupt of the same thread replaces the first: after
    [raise_thread_exception] with one exception and then with another, the
    thread states are those the second call alone would leave, and the
    delivery count of every thread id is unchanged by a call.  With one
    thread state found on CPython, the exception pending is the second
    one. *)
Theorem second_interrupt_replaces_first
  (thread_id : Z) (first second : pyobj) (w : World) :
  let w1 := snd (raise_thread_exception thread_id first w) in
  let w2 := snd (raise_thread_exception thread_id second w1) in
  (forall tid, delivery_count w1 tid = delivery_count w tid) /\
  tstates w2 = tstates (snd (raise_thread_exception thread_id second w)) /\
  (current_platform w = "CPython" ->
   delivery_count w thread_id = 1 ->
   Forall (fun t => ts_thread_id t = marshalled_id w thread_id ->
                    ts_async_exc t = Some second) (tstates w2)).
Proof.
  intros w1 w2.
  assert (Hcount : forall tid, delivery_count w1 tid = delivery_count w tid)
    by (intros tid; apply raise_thread_exception_keeps_count).
  assert (Hts : tstates w2 = tstates (snd (raise_thread_exception thread_id second w))).
  { subst w2. rewrite !raise_thread_exception_tstates. rewrite Hcount.
    unfold marshalled_id.
    destruct (raise_thread_exception_keeps_version thread_id first w) as [Hp Hv].
    fold w1 in Hp, Hv. rewrite Hp, Hv.
    destruct (String.eqb (current_platform w) "CPython") eqn:P.
    - subst w1. rewrite raise_thread_exception_tstates, P.
      apply with_async_exc_twice.
    - subst w1. rewrite raise_thread_exception_tstates, P. reflexivity. }
  split; [exact Hcount|]. split; [exact Hts|].
  intros Hplat Hn. rewrite Hts, raise_thread_exception_tstates, Hplat, Hn.
  apply with_async_exc_slot.
Qed.

Lemma second_interrupt_replaces_first_witness :
  let w := module_load cpython_host in
  let w1 := snd (raise_thread_exception 7 (PyType Interrupt) w) in
  let w2 := snd (raise_thread_exception 7 (PyType MyInterrupt) w1) in
  In (TState 7 (Some (PyType Interrupt))) (tstates w1) /\
  Forall (fun t => ts_thread_id t = marshalled_id w 7 ->
                   ts_async_exc t = Some (PyType MyInterrupt)) (tstates w2).
Proof.
  intros w w1 w2.
  assert (Hplat : current_platform w = "CPython") by (vm_compute; reflexivity).
  assert (Hn : delivery_count w 7 = 1) by (vm_compute; reflexivity).
  destruct (second_interrupt_replaces_first 7 (PyType Interrupt) (PyType MyInterrupt) w)
    as (_ & _ & Hsecond).
  split; [vm_compute; right; left; reflexivity|].
  exact (Hsecond Hplat Hn).
Defined.

Section StaleThread.

Variables (thread_id : Z) (exception : pyobj).

(** One interrupt of a thread id that matches no thread state. *)
Lemma raise_thread_exception_stale w :
  current_platform w = "CPython" ->
  delivery_count w thread_id = 0 ->
  raise_thread_exception thread_id exception w =
  (Return PyNone,
   record_log
     (LogRecord CRITICAL "Failed to set exception (%s) in thread %r."
        [ArgStr (exctype_name exception);
         ArgInt (ctype_value (thread_id_ctype (python_version w)) thread_id)])
     (record_call (CallSetAsyncExc (marshalled_id w thread_id) (Some exception)) w)).
Proof.
  intros Hplat Hn.
  rewrite (raise_thread_exception_cpython_eq _ _ _ Hplat), Hn.
  cbn [Z.eqb andb]. rewrite _raise_thread_exception_cpython_eq. cbn [snd].
  rewrite Hn. cbn [Z.eqb].
  rewrite with_async_exc_no_match by exact Hn.
  destruct w; reflexivity.
Qed.

End StaleThread.

(** X14: interrupting, any number of times, a thread id that matches no
    thread state never raises: on CPython every call returns [None], logs
    one critical record and makes one call to the runtime; no thread state
    changes, no signal is sent and the flag stays as it is. *)
Theorem repeated_stale_interrupts
  (n : nat) (thread_id : Z) (exception : pyobj) (w : World) :
  current_platform w = "CPython" ->
  delivery_count w thread_id = 0 ->
  let w' := snd (repeatedly n (raise_thread_exception thread_id exception) w) in
  fst (repeatedly n (raise_thread_exception thread_id exception) w) = Return PyNone /\
  tstates w' = tstates w /\
  log w' = log w ++
    repeat (LogRecord CRITICAL "Failed to set exception (%s) in thread %r."
              [ArgStr (exctype_name exception);
               ArgInt (ctype_value (thread_id_ctype (python_version w)) thread_id)])
           n /\
  calls w' = calls w ++
    repeat (CallSetAsyncExc (marshalled_id w thread_id) (Some exception)) n /\
  delivered w' = delivered w /\
  system_call_interruptable w' = system_call_interruptable w.
Proof.
  revert w. induction n as [|n IH]; intros w Hplat Hn.
  - cbn. rewrite !app_nil_r. repeat split.
  - cbv zeta. cbn [repeatedly]. unfold bind.
    rewrite (raise_thread_exception_stale thread_id exception w Hplat Hn).
    cbv beta iota.
    set (w1 := record_log _ _).
    assert (Hplat1 : current_platform w1 = "CPython") by exact Hplat.
    assert (Hn1 : delivery_count w1 thread_id = 0) by exact Hn.
    destruct (IH w1 Hplat1 Hn1) as (Hret & Hts & Hlog & Hcalls & Hdel & Hflag).
    split; [exact Hret|].
    split; [exact Hts|].
    split; [rewrite Hlog; cbn [repeat]; unfold w1; cbn [log record_log record_call];
            rewrite <- app_assoc; reflexivity|].
    split; [rewrite Hcalls; cbn [repeat]; unfold w1; cbn [calls record_log record_call];
            rewrite <- app_assoc; reflexivity|].
    split; [exact Hdel | exact Hflag].
Qed.

Lemma repeated_stale_interrupts_witness :
  let w := snd (enable_system_call_interruptable_support (module_load cpython_host)) in
  let w' := snd (repeatedly 1000 (raise_thread_exception 5 (PyType MyInterrupt)) w) in
  fst (repeatedly 1000 (raise_thread_exception 5 (PyType MyInterrupt)) w) = Return PyNone /\
  tstates w' = tstates w /\
  delivered w' = delivered w.
Proof.
  intros w w'.
  assert (Hplat : current_platform w = "CPython") by (vm_compute; reflexivity).
  assert (Hn : delivery_count w 5 = 0) by (vm_compute; reflexivity).
  destruct (repeated_stale_interrupts 1000 5 (PyType MyInterrupt) w Hplat Hn)
    as (Hret & Hts & _ & _ & Hdel & _).
  split; [exact Hret|].
  split; [exact Hts | exact Hdel].
Defined.

(** ** An undefined signal name *)

Section UndefinedSignal.

(** The configured name and the [signal] module never change. *)
Lemma step_keeps_signal_module w w' :
  step w w' ->
  system_call_interrupt_signal w' = system_call_interrupt_signal w /\
  signal_module w' = signal_module w.
Proof.
  intros [w0 | w0 | tid exc w0 | signum frame w0 | w0 w1 Hmoves].
  - apply enable_host_moves_but_flag.
  - apply disable_host_moves_but_flag.
  - destruct (raise_thread_exception_host_moves tid exc w0) as (_ & _ & _ & H1 & H2).
    split; assumption.
  - split; reflexivity.
  - destruct Hmoves as (_ & _ & _ & H1 & H2). split; assumption.
Qed.

Lemma reachable_signal_module h w :
  reachable h w ->
  system_call_interrupt_signal w =
    os_getenv h "dramatiq_system_call_interrupt_signal" "SIGUSR1" /\
  signal_module w = host_signal_module h.
Proof.
  induction 1 as [|w w' _ [IH1 IH2] Hstep].
  - split; reflexivity.
  - destruct (step_keeps_signal_module w w' Hstep) as [-> ->]. split; assumption.
Qed.

(** With the flag cleared, [raise_thread_exception] returns [None] and
    neither calls [pthread_kill] nor sends a signal. *)
Lemma disarmed_no_wake_signal thread_id exception w :
  system_call_interruptable w = false ->
  let w' := snd (raise_thread_exception thread_id exception w) in
  fst (raise_thread_exception thread_id exception w) = Return PyNone /\
  (forall c, In c (new_calls w w') -> is_kill c = false) /\
  delivered w' = delivered w.
Proof.
  intros Hflag w'. subst w'.
  assert (Hinv : armed_signal_number w) by (intros H; congruence).
  destruct (String.eqb (current_platform w) "CPython") eqn:P.
  - apply String.eqb_eq in P.
    pose proof (raise_thread_exception_new_calls thread_id exception w P Hinv)
      as Hcalls.
    pose proof (raise_thread_exception_delivered thread_id exception w P) as Hdel.
    cbv zeta in Hcalls. rewrite Hflag, andb_false_r, app_nil_r in Hcalls, Hdel.
    split; [|split; [|exact Hdel]].
    + rewrite (raise_thread_exception_cpython_eq _ _ _ P), Hflag, andb_false_r.
      reflexivity.
    + intros c Hin. rewrite Hcalls in Hin.
      destruct Hin as [<- | Hin]; [reflexivity|].
      destruct (1 <? _); [|contradiction].
      destruct Hin as [<- | []]. reflexivity.
  - apply String.eqb_neq in P.
    rewrite (raise_thread_exception_other_platform_eq _ _ _ P). cbn [fst snd].
    split; [reflexivity|]. split; [|reflexivity].
    unfold new_calls. cbn [calls record_log]. rewrite drop_all.
    intros c [].
Qed.

End UndefinedSignal.

(** X15: when the configured name (the environment variable
    [dramatiq_system_call_interrupt_signal], [SIGUSR1] without it) is not an
    attribute of the [signal] module, the feature stays off without any
    error: in every world reached the flag is cleared, [enable] returns
    [None] and changes nothing, and [raise_thread_exception] returns [None]
    without calling [pthread_kill] or sending a signal. *)
Theorem undefined_signal_keeps_feature_off (h : Host) (w : World) :
  host_signal_module h !!
    os_getenv h "dramatiq_system_call_interrupt_signal" "SIGUSR1" = None ->
  reachable h w ->
  system_call_interruptable w = false /\
  enable_system_call_interruptable_support w = (Return PyNone, w) /\
  forall thread_id exception,
    let w' := snd (raise_thread_exception thread_id exception w) in
    fst (raise_thread_exception thread_id exception w) = Return PyNone /\
    (forall c, In c (new_calls w w') -> is_kill c = false) /\
    delivered w' = delivered w.
Proof.
  intros Hnone Hreach.
  destruct (reachable_signal_module h w Hreach) as [Hname Hsm].
  assert (Hundef : signal_module w !! system_call_interrupt_signal w = None)
    by (rewrite Hname, Hsm; exact Hnone).
  pose proof (reachable_armed_signal_number h w Hreach) as Hinv.
  assert (Hflag : system_call_interruptable w = false).
  { destruct (system_call_interruptable w) eqn:E; [|reflexivity].
    destruct (Hinv E) as [n Hn]. congruence. }
  split; [exact Hflag|]. split; [apply enable_noop; auto|].
  intros tid exc. exact (disarmed_no_wake_signal tid exc w Hflag).
Qed.

Lemma undefined_signal_keeps_feature_off_witness :
  let w := snd (enable_system_call_interruptable_support
                  (module_load misconfigured_host)) in
  reachable misconfigured_host w /\
  system_call_interruptable w = false /\
  fst (raise_thread_exception 1 (PyType MyInterrupt) w) = Return PyNone.
Proof.
  intros w.
  assert (Hnone : host_signal_module misconfigured_host !!
            os_getenv misconfigured_host "dramatiq_system_call_interrupt_signal"
              "SIGUSR1" = None) by (vm_compute; reflexivity).
  assert (Hreach : reachable misconfigured_host w).
  { exact (reach_step _ _ _ (reach_load misconfigured_host) (step_enable _)). }
  destruct (undefined_signal_keeps_feature_off misconfigured_host w Hnone Hreach)
    as (Hflag & _ & Hraise).
  split; [exact Hreach|]. split; [exact Hflag|].
  exact (proj1 (Hraise 1 (PyType MyInterrupt))).
Defined.

(** X17: once [disable] has returned, and whenever the flag is cleared,
    [raise_thread_exception] injects only: it returns [None], makes no
    [pthread_kill] call and sends no signal, on every platform and for every
    delivery count. *)
Theorem no_wake_signal_after_disable
  (w : World) (r : pyvalue) (thread_id : Z) (exception : pyobj) :
  fst (disable_system_call_interruptable_support w) = Return r ->
  let w1 := snd (disable_system_call_interruptable_support w) in
  let w2 := snd (raise_thread_exception thread_id exception w1) in
  system_call_interruptable w1 = false /\
  fst (raise_thread_exception thread_id exception w1) = Return PyNone /\
  (forall c, In c (new_calls w1 w2) -> is_kill c = false) /\
  delivered w2 = delivered w1.
Proof.
  intros Hret w1 w2.
  assert (Hflag : system_call_interruptable w1 = false).
  { subst w1. revert Hret. rewrite disable_configure.
    destruct (system_call_interruptable w) eqn:C; [|intros _; exact C].
    intros Hret. apply (proj1 (configure_flag _ _ _)) in Hret. tauto. }
  split; [exact Hflag|].
  exact (disarmed_no_wake_signal thread_id exception w1 Hflag).
Qed.

Lemma no_wake_signal_after_disable_witness :
  let w := snd (enable_system_call_interruptable_support (module_load cpython_host)) in
  let w1 := snd (disable_system_call_interruptable_support w) in
  let w2 := snd (raise_thread_exception 7 (PyType MyInterrupt) w1) in
  system_call_interruptable w = true /\
  fst (disable_system_call_interruptable_support w) = Return PyNone /\
  delivery_count w1 7 = 1 /\
  delivered w2 = delivered w1.
Proof.
  intros w w1 w2.
  assert (Hret : fst (disable_system_call_interruptable_support w) = Return PyNone)
    by (vm_compute; reflexivity).
  destruct (no_wake_signal_after_disable w PyNone 7 (PyType MyInterrupt) Hret)
    as (_ & _ & _ & Hdel).
  split; [vm_compute; reflexivity|].
  split; [exact Hret|].
  split; [vm_compute; reflexivity | exact Hdel].
Defined.

(** ** More releases *)

(** X4: releases 3.7 to 3.9, and every release of major version 4 to 9,
    get the unsigned [c_ulong]. *)
Theorem thread_id_ctype_unsigned_releases (major minor : nat) (patch : string) :
  (major = 3 /\ 7 <= minor <= 9 \/ 4 <= major <= 9)%nat ->
  thread_id_ctype (python_version_tuple major minor patch) = c_ulong.
Proof.
  intros [[-> H] | H].
  - apply thread_id_ctype_3_7_to_3_9. exact H.
  - do 4 (destruct major as [|major]; [lia|]).
    do 6 (destruct major as [|major]; [reflexivity|]). lia.
Qed.

Lemma thread_id_ctype_unsigned_releases_witness :
  (3 = 3 /\ 7 <= 9 <= 9 \/ 4 <= 3 <= 9)%nat /\
  thread_id_ctype (python_version_tuple 3 9 "18") = c_ulong.
Proof.
  assert (H : (3 = 3 /\ 7 <= 9 <= 9 \/ 4 <= 3 <= 9)%nat) by (left; lia).
  split; [exact H|].
  exact (thread_id_ctype_unsigned_releases 3 9 "18" H).
Defined.

(** X5: every release whose minor or major version has two digits and
    starts below 7, respectively 3, compares below ("3", "7") as strings
    and gets the signed [c_long]: 3.10 to 3.69, and major versions 10 to
    29. *)
Theorem thread_id_ctype_two_digit_releases (major minor : nat) (patch : string) :
  (major = 3 /\ 10 <= minor < 70 \/ 10 <= major < 30)%nat ->
  thread_id_ctype (python_version_tuple major minor patch) = c_long.
Proof.
  intros [[-> H] | H].
  - apply thread_id_ctype_3_10_to_3_69. exact H.
  - do 10 (destruct major as [|major]; [lia|]).
    do 20 (destruct major as [|major]; [reflexivity|]). lia.
Qed.

Lemma thread_id_ctype_two_digit_releases_witness :
  (3 = 3 /\ 10 <= 12 < 70 \/ 10 <= 3 < 30)%nat /\
  thread_id_ctype (python_version_tuple 3 12 "4") = c_long.
Proof.
  assert (H : (3 = 3 /\ 10 <= 12 < 70 \/ 10 <= 3 < 30)%nat) by (left; lia).
  split; [exact H|].
  exact (thread_id_ctype_two_digit_releases 3 12 "4" H).
Defined.
